(** * GoLog: a shallow embedding of [Initialize.go]

    The package writes time-stamped, tagged log records to a file and to the
    terminal.  This development embeds [Initialize], [printOutPut] and
    [generateJSON] together with the parts of Go's [fmt], [strconv], [time]
    and [os] packages that they call, and proves the behaviour of the
    package over that embedding. *)

From Stdlib Require Import ZArith Ascii String DecimalString Lia.
From stdpp Require Import gmap strings list fin_maps.

Local Open Scope Z_scope.

(** ** Strings

    Go strings are byte sequences; they are modelled by [string], whose
    characters are 8-bit [ascii] values.  Concatenation is written [+:+]. *)

Module Str.

(** [drop n s]: [s] without its first [n] bytes. *)
Fixpoint drop (n : nat) (s : string) : string :=
  match n, s with
  | O, _ => s
  | S _, EmptyString => EmptyString
  | S n', String _ s' => drop n' s'
  end.

(** [concat l]: the strings of [l] one after the other. *)
Fixpoint concat (l : list string) : string :=
  match l with
  | [] => ""
  | s :: l' => s +:+ concat l'
  end.

(** [In c s]: the byte [c] occurs in [s]. *)
Fixpoint In (c : ascii) (s : string) : Prop :=
  match s with
  | EmptyString => False
  | String d s' => d = c \/ In c s'
  end.

(** [occurs p s]: [p] is a substring of [s]. *)
Definition occurs (p s : string) : Prop :=
  exists pre post, s = pre +:+ p +:+ post.

(** The same test as a program: [prefix] at some position. *)
Fixpoint contains (p s : string) : bool :=
  String.prefix p s ||
  match s with
  | EmptyString => false
  | String _ s' => contains p s'
  end.

(** [count c s]: how often the byte [c] occurs in [s]. *)
Fixpoint count (c : ascii) (s : string) : nat :=
  match s with
  | EmptyString => O
  | String d s' => ((if Ascii.eqb d c then 1 else 0) + count c s')%nat
  end.

End Str.

(** ** [strconv.Itoa]

    [strconv.Itoa(i)] is the decimal representation of [i], with a leading
    minus sign for negative numbers and no padding. *)

Definition Itoa (i : Z) : string := NilZero.string_of_int (Z.to_int i).

(** ** [fmt]: printing with the default formats

    The message parts are [interface{}] values.  The embedding covers the
    dynamic types the logger is documented with: strings, integers,
    booleans and the nil interface. *)

Inductive Value : Type :=
| VString (s : string)
| VInt (n : Z)
| VBool (b : bool)
| VNil.

(** [arg != nil && reflect.TypeOf(arg).Kind() == reflect.String] *)
Definition isString (arg : Value) : bool :=
  match arg with
  | VString _ => true
  | _ => false
  end.

(** [p.printArg(arg, 'v')]: the default format of one operand. *)
Definition printArg (arg : Value) : string :=
  match arg with
  | VString s => s
  | VInt n => Itoa n
  | VBool b => if b then "true" else "false"
  | VNil => "<nil>"
  end.

Definition newline : string := String "010" "".

(** [doPrint], the loop behind [fmt.Print], [fmt.Fprint] and [fmt.Sprint]:
    it walks the operands keeping [argNum] and [prevString], and adds a
    space between two operands when neither is a string. *)
Fixpoint doPrint (argNum : nat) (prevString : bool) (a : list Value) : string :=
  match a with
  | [] => ""
  | arg :: rest =>
      (if (0 <? argNum)%nat && negb (isString arg) && negb prevString
       then " " else "")
      +:+ printArg arg
      +:+ doPrint (S argNum) (isString arg) rest
  end.

Definition Sprint (a : list Value) : string := doPrint 0 false a.

(** [doPrintln], the loop behind [fmt.Println] and [fmt.Fprintln]: a space
    between all operands and a newline at the end. *)
Fixpoint doPrintln (argNum : nat) (a : list Value) : string :=
  match a with
  | [] => newline
  | arg :: rest =>
      (if (0 <? argNum)%nat then " " else "")
      +:+ printArg arg
      +:+ doPrintln (S argNum) rest
  end.

Definition Sprintln (a : list Value) : string := doPrintln 0 a.

(** ** [time]

    A [Time] is represented by the fields of its civil date and clock in
    its location and by its nanosecond within the second, the values that
    [Time.Format] and [Time.Nanosecond] read. *)

Record Time : Type := mkTime {
  Year : Z;
  Month : Z;
  Day : Z;
  Hour : Z;
  Minute : Z;
  Second : Z;
  Nanosecond : Z
}.

(** A time that the clock can return: fields within their calendar ranges
    and [0 <= Nanosecond < 1e9]. *)
Definition wf_Time (t : Time) : Prop :=
  1 <= Month t <= 12 /\ 1 <= Day t <= 31 /\ 0 <= Hour t <= 23 /\
  0 <= Minute t <= 59 /\ 0 <= Second t <= 59 /\
  0 <= Nanosecond t <= 999999999.

(** [zeros n]: [n] characters ['0']. *)
Fixpoint zeros (n : nat) : string :=
  match n with
  | O => ""
  | S n' => String "0" (zeros n')
  end.

(** [appendInt(b, x, width)] of package time: the decimal form of [x],
    zero-padded to [width] digits, behind a minus sign when [x < 0]. *)
Definition appendInt (x : Z) (width : nat) : string :=
  let digits := Itoa (Z.abs x) in
  (if x <? 0 then "-" else "")
  +:+ zeros (width - String.length digits)
  +:+ digits.

(** [Time.Format]: the layout is read from left to right; the reference
    fields [2006], [01], [02], [15], [04] and [05] are replaced by the year,
    month, day, hour, minute and second of [t], and the other bytes of the
    layout are copied.  (Only the reference fields that the logger's layout
    contains are interpreted here.) *)
Fixpoint Format (t : Time) (layout : string) : string :=
  match layout with
  | String "2" (String "0" (String "0" (String "6" rest))) =>
      appendInt (Year t) 4 +:+ Format t rest
  | String "0" (String "1" rest) => appendInt (Month t) 2 +:+ Format t rest
  | String "0" (String "2" rest) => appendInt (Day t) 2 +:+ Format t rest
  | String "1" (String "5" rest) => appendInt (Hour t) 2 +:+ Format t rest
  | String "0" (String "4" rest) => appendInt (Minute t) 2 +:+ Format t rest
  | String "0" (String "5" rest) => appendInt (Second t) 2 +:+ Format t rest
  | String c rest => String c (Format t rest)
  | EmptyString => ""
  end.

(** ** The process and its environment

    The observable state of a run: the files on disk, the table of open
    file descriptors with their offsets, the bytes written to standard
    output, and how often the wall clock and the map iterator have been
    consulted so far. *)

Abbreviation File := nat (only parsing).

Record World : Type := mkWorld {
  disk : gmap string string;
  fds : gmap nat (string * nat);
  stdout : string;
  ticks : nat;
  ranges : nat
}.

(** The struct [LogInstance]: it holds the [*os.File] of the log file. *)
Record LogInstance : Type := mkLogInstance {
  logDestination : File
}.

(** A call either returns to its caller or ends the process with an exit
    status ([os.Exit]); nothing that follows an exit is executed. *)
Inductive Outcome (A : Type) : Type :=
| Returned (a : A)
| Exited (code : Z).
Arguments Returned {A} a.
Arguments Exited {A} code.

Definition Proc (A : Type) : Type := World -> Outcome A * World.

#[global] Instance Proc_ret : MRet Proc := fun A a w => (Returned a, w).

#[global] Instance Proc_bind : MBind Proc := fun A B f m w =>
  match m w with
  | (Returned a, w') => f a w'
  | (Exited code, w') => (Exited code, w')
  end.

Definition when (b : bool) (body : Proc unit) : Proc unit :=
  if b then body else mret tt.

(** [for _, x := range l { body x }] over a list. *)
Fixpoint forEach {A : Type} (l : list A) (body : A -> Proc unit) : Proc unit :=
  match l with
  | [] => mret tt
  | x :: l' => body x ;; forEach l' body
  end.

(** [pwrite off data content]: the file content after [data] is written
    at offset [off]; bytes of [content] under [data] are overwritten, the
    file grows when [data] reaches beyond its end, and a gap between the
    old end and [off] reads as zero bytes. *)
Fixpoint pwrite (off : nat) (data content : string) : string :=
  match off with
  | O => data +:+ Str.drop (String.length data) content
  | S off' =>
      match content with
      | EmptyString => String "000" (pwrite off' data EmptyString)
      | String c rest => String c (pwrite off' data rest)
      end
  end.

(** [permute choices l]: [l] in the order in which a map iterator that
    draws [choices] visits it; each step takes the element at the next
    choice (modulo the number of elements left) out of the list. *)
Fixpoint shuffle {A : Type} (fuel : nat) (choices : list nat) (l : list A) : list A :=
  match fuel with
  | O => []
  | S fuel' =>
      let i := Nat.modulo (hd O choices) (length l) in
      match l !! i with
      | Some x => x :: shuffle fuel' (tl choices) (delete i l)
      | None => []
      end
  end.

Definition permute {A : Type} (choices : list nat) (l : list A) : list A :=
  shuffle (length l) choices l.

(** The world after [data] has been written through descriptor [f]: the
    bytes go to the file at the descriptor's offset, which advances.  A
    write of no bytes has no effect, and a write through a descriptor that
    is not open fails and changes nothing. *)
Definition wfile (f : File) (data : string) (w : World) : World :=
  match data, fds w !! f with
  | String _ _, Some (path, off) =>
      mkWorld (<[path := pwrite off data (default "" (disk w !! path))]> (disk w))
              (<[f := (path, (off + String.length data)%nat)]> (fds w))
              (stdout w) (ticks w) (ranges w)
  | _, _ => w
  end.

(** The world after [data] has been written to standard output. *)
Definition wout (data : string) (w : World) : World :=
  mkWorld (disk w) (fds w) (stdout w +:+ data) (ticks w) (ranges w).

Definition tick (w : World) : World :=
  mkWorld (disk w) (fds w) (stdout w) (S (ticks w)) (ranges w).

Definition ranged (w : World) : World :=
  mkWorld (disk w) (fds w) (stdout w) (ticks w) (S (ranges w)).

(** The constants of the package. *)
Definition ColorDefault : string := String "027" "[0;0m".
Definition ColorRed : string := String "027" "[31;1m".
Definition ColorYellow : string := String "027" "[33;1m".

Definition MessageNormal : string := " [ INFO ] ".
Definition MessageFatal : string := " [ ERRO ] ".
Definition MessageWarning : string := " [ WARN ] ".

Section GoLog.

(** What the program cannot decide: [clock n] is the time that the
    [n]-th reading of the wall clock returns, [mapseed n] the choices of
    the [n]-th iteration over a map (Go leaves the order of [range] over
    a map unspecified, and it may change from one loop to the next), and
    [denied path] says that the system refuses to create [path]. *)
Variable clock : nat -> Time.
Variable mapseed : nat -> list nat.
Variable denied : string -> bool.

(** [time.Now()] *)
Definition time_Now : Proc Time :=
  fun w => (Returned (clock (ticks w)), tick w).

(** [for k, v := range m]: the entries of [m], each once, in the order
    of this iteration. *)
Definition rangeMap (m : gmap string Value) : Proc (list (string * Value)) :=
  fun w => (Returned (permute (mapseed (ranges w)) (map_to_list m)), ranged w).

(** [os.Create(name)]: creates or truncates the file and opens it for
    reading and writing at offset 0; [None] stands for the [(nil, err)]
    result. *)
Definition os_Create (name : string) : Proc (option File) :=
  fun w =>
    if denied name then (Returned None, w)
    else
      let f := fresh (dom (fds w)) in
      (Returned (Some f),
       mkWorld (<[name := ""]> (disk w)) (<[f := (name, O)]> (fds w))
               (stdout w) (ticks w) (ranges w)).

(** [os.Exit(code)] *)
Definition os_Exit {A : Type} (code : Z) : Proc A :=
  fun w => (Exited code, w).

(** [fmt.Fprint(f, a...)], [fmt.Fprintln(f, a...)], [fmt.Print(a...)]
    and [fmt.Println(a...)]; the callers drop the returned byte count and
    error. *)
Definition Fprint (f : File) (a : list Value) : Proc unit :=
  fun w => (Returned tt, wfile f (Sprint a) w).
Definition Fprintln (f : File) (a : list Value) : Proc unit :=
  fun w => (Returned tt, wfile f (Sprintln a) w).
Definition Print (a : list Value) : Proc unit :=
  fun w => (Returned tt, wout (Sprint a) w).
Definition Println (a : list Value) : Proc unit :=
  fun w => (Returned tt, wout (Sprintln a) w).

(** [Initialize] *)
Definition Initialize (logDestination : string) : Proc (option LogInstance) :=
  openResult ← os_Create logDestination;
  match openResult with
  | None => mret None
  | Some fileDescriptor => mret (Some (mkLogInstance fileDescriptor))
  end.

(** [generateJSON] *)
Definition generateJSON (logInstance : LogInstance)
    (needFileOutPut needTerminalOutput : bool)
    (jsonData : gmap string Value) : Proc unit :=
  when needFileOutPut
    (Fprint (logDestination logInstance) [VString " ["]) ;;
  when needTerminalOutput
    (Print [VString " ["]) ;;
  entries ← rangeMap jsonData;
  forEach entries (fun '(jsonKey, jsonValue) =>
    when needFileOutPut
      (Fprint (logDestination logInstance)
         [VString " ("; VString jsonKey; VString ": "; jsonValue; VString ")"]) ;;
    when needTerminalOutput
      (Print [VString " ("; VString jsonKey; VString ": "; jsonValue; VString ")"])) ;;
  when needFileOutPut
    (Fprint (logDestination logInstance) [VString " ]"]) ;;
  when needTerminalOutput
    (Print [VString " ]"]).

(** [printOutPut].  The receiver is an instance that [Initialize] has
    returned (a non-nil [*LogInstance]); [jsonContent] is [None] for a nil
    map; [colorCode] keeps its zero value, the empty string, when no case
    of the [switch] matches. *)
Definition printOutPut (logInstance : LogInstance)
    (needFileOutput needTerminalOutput needTerminalColoredOutput : bool)
    (messageType : string)
    (jsonContent : option (gmap string Value))
    (messageContent : list Value) : Proc unit :=
  getTime ← time_Now;
  let generateLongTime := Format getTime "2006-01-02 15:04:05" in
  let generatedTimeMillSeconds := Z.quot (Nanosecond getTime) 1000000 in
  let generatedTimeNanoSeconds := Nanosecond getTime in
  let generatedTime :=
    generateLongTime +:+ ":" +:+
    Itoa generatedTimeMillSeconds +:+ ":" +:+
    Itoa generatedTimeNanoSeconds in
  let messagePrefix := generatedTime +:+ messageType in
  when needFileOutput
    (Fprint (logDestination logInstance) [VString messagePrefix] ;;
     Fprint (logDestination logInstance) messageContent ;;
     match jsonContent with
     | Some jsonData => generateJSON logInstance true false jsonData
     | None => mret tt
     end ;;
     Fprintln (logDestination logInstance) []) ;;
  (if needTerminalOutput && needTerminalColoredOutput then
     let colorCode :=
       if String.eqb messageType MessageNormal then ColorDefault
       else if String.eqb messageType MessageFatal then ColorRed
       else if String.eqb messageType MessageWarning then ColorYellow
       else "" in
     Print [VString colorCode; VString messagePrefix] ;;
     Print messageContent ;;
     match jsonContent with
     | Some jsonData => generateJSON logInstance false true jsonData
     | None => mret tt
     end ;;
     Println [VString ColorDefault]
   else if needTerminalOutput then
     Print [VString messagePrefix] ;;
     Print messageContent ;;
     match jsonContent with
     | Some jsonData => generateJSON logInstance false true jsonData
     | None => mret tt
     end ;;
     Println []
   else mret tt) ;;
  if String.eqb messageType MessageFatal then os_Exit 1 else mret tt.

End GoLog.

(** ** What the package is expected to write

    The severities, the prefix, the records and the structured-data suffix
    as the specification describes them, independent of the sinks; the
    theorems below compare them with what the program does. *)

(** The three severities with their tags and colors. *)
Inductive Severity : Type := Normal | Warning | Fatal.

Definition tagOf (s : Severity) : string :=
  match s with
  | Normal => MessageNormal
  | Warning => MessageWarning
  | Fatal => MessageFatal
  end.

Definition colorOf (s : Severity) : string :=
  match s with
  | Normal => ColorDefault
  | Fatal => ColorRed
  | Warning => ColorYellow
  end.

(** The color code that goes with a message type, which the program takes
    as a string: empty for a string that is none of the three tags. *)
Definition colorCodeOf (messageType : string) : string :=
  if String.eqb messageType MessageNormal then ColorDefault
  else if String.eqb messageType MessageFatal then ColorRed
  else if String.eqb messageType MessageWarning then ColorYellow
  else "".

(** [YYYY-MM-DD HH:MM:SS], 24-hour and zero-padded. *)
Definition formatYMDHMS (t : Time) : string :=
  appendInt (Year t) 4 +:+ "-" +:+ appendInt (Month t) 2 +:+ "-" +:+
  appendInt (Day t) 2 +:+ " " +:+ appendInt (Hour t) 2 +:+ ":" +:+
  appendInt (Minute t) 2 +:+ ":" +:+ appendInt (Second t) 2.

(** The prefix of a record: the formatted time, the millisecond and the
    nanosecond of the second, and the message type, which is the tag of
    the severity. *)
Definition messagePrefixOf (t : Time) (messageType : string) : string :=
  formatYMDHMS t +:+ ":" +:+ Itoa (Z.quot (Nanosecond t) 1000000) +:+ ":" +:+
  Itoa (Nanosecond t) +:+ messageType.

Definition prefixOf (t : Time) (s : Severity) : string :=
  messagePrefixOf t (tagOf s).

(** One entry of the structured data: [ (key: value)]. *)
Definition fragment (e : string * Value) : string :=
  " (" +:+ e.1 +:+ ": " +:+ printArg e.2 +:+ ")".

(** The structured data with its entries in the given order. *)
Definition renderEntries (entries : list (string * Value)) : string :=
  " [" +:+ Str.concat (fragment <$> entries) +:+ " ]".

(** The suffix of a record: nothing for a nil map, else the entries in the
    order of the [n]-th map iteration. *)
Definition dataText (mapseed : nat -> list nat) (n : nat)
    (jsonContent : option (gmap string Value)) : string :=
  match jsonContent with
  | Some jsonData => renderEntries (permute (mapseed n) (map_to_list jsonData))
  | None => ""
  end.

(** The number of map iterations that rendering [o] takes. *)
Definition iterations {A : Type} (o : option A) : nat :=
  match o with
  | Some _ => 1%nat
  | None => 0%nat
  end.

(** The record of the file sink and the record of the terminal sink. *)
Definition fileRecord (prefix body suffix : string) : string :=
  prefix +:+ body +:+ suffix +:+ newline.

Definition termRecord (colored : bool) (colorCode prefix body suffix : string) : string :=
  if colored
  then colorCode +:+ prefix +:+ body +:+ suffix +:+ ColorDefault +:+ newline
  else prefix +:+ body +:+ suffix +:+ newline.

(** The world that an emission leaves behind: the clock has been read
    once; then the file sink, when asked for, has received one record, and
    then the terminal sink, when asked for, has received one; each sink
    that renders structured data has iterated over the map once. *)
Definition rangedIf {A : Type} (o : option A) (w : World) : World :=
  match o with
  | Some _ => ranged w
  | None => w
  end.

Definition whenW (b : bool) (step : World -> World) (w : World) : World :=
  if b then step w else w.

Definition fileSink (mapseed : nat -> list nat) (f : File) (prefix : string)
    (jsonContent : option (gmap string Value)) (messageContent : list Value)
    (w : World) : World :=
  wfile f (fileRecord prefix (Sprint messageContent)
             (dataText mapseed (ranges w) jsonContent))
    (rangedIf jsonContent w).

Definition termSink (mapseed : nat -> list nat) (colored : bool)
    (colorCode prefix : string)
    (jsonContent : option (gmap string Value)) (messageContent : list Value)
    (w : World) : World :=
  wout (termRecord colored colorCode prefix (Sprint messageContent)
          (dataText mapseed (ranges w) jsonContent))
    (rangedIf jsonContent w).

Definition emitWorld (clock : nat -> Time) (mapseed : nat -> list nat)
    (logInstance : LogInstance) (toFile toTerminal colored : bool)
    (messageType : string) (jsonContent : option (gmap string Value))
    (messageContent : list Value) (w : World) : World :=
  let prefix := messagePrefixOf (clock (ticks w)) messageType in
  whenW toTerminal
    (termSink mapseed colored (colorCodeOf messageType) prefix
       jsonContent messageContent)
    (whenW toFile
       (fileSink mapseed (logDestination logInstance) prefix
          jsonContent messageContent)
       (tick w)).

(** Descriptor [f] is open on [path], the file holds [content], and the
    offset of [f] is at the end of the file: the state of a log file that
    is written through one descriptor only. *)
Definition file_at_end (f : File) (path content : string) (w : World) : Prop :=
  fds w !! f = Some (path, String.length content) /\
  disk w !! path = Some content.

(** The escape character, the first byte of every color code, and the
    three escape sequences. *)
Definition ESC : ascii := "027"%char.

Definition isAnsi (p : string) : Prop :=
  p = ColorDefault \/ p = ColorRed \/ p = ColorYellow.

(** [ansiFree s]: none of the three escape sequences is a substring of [s]. *)
Definition ansiFree (s : string) : bool :=
  negb (Str.contains ColorDefault s) &&
  negb (Str.contains ColorRed s) &&
  negb (Str.contains ColorYellow s).

(** The bytes that a prefix with one of the three tags is made of. *)
Definition prefixAlphabet : string := "-0123456789: []INFOERWA".

(** *** Two properties in the words of the specification *)

(** The file round trip: the parts ["a"], [1], [true] arrive in the file
    as [a1true], with nothing between them. *)
Definition file_round_trip_claim : Prop :=
  forall (clock : nat -> Time) (mapseed : nat -> list nat)
         (logInstance : LogInstance) (colored : bool) (S : Severity)
         (w : World) (path content : string),
    file_at_end (logDestination logInstance) path content w ->
    disk (printOutPut clock mapseed logInstance true false colored (tagOf S)
            None [VString "a"; VInt 1; VBool true] w).2 !! path
    = Some (content +:+ prefixOf (clock (ticks w)) S +:+ "a1true" +:+ newline).

(** Color gating: the premise is that no single message part, key or
    value contains an escape sequence. *)
Definition color_gating_claim : Prop :=
  forall (clock : nat -> Time) (mapseed : nat -> list nat)
         (logInstance : LogInstance) (toFile : bool) (S : Severity)
         (jsonContent : option (gmap string Value))
         (messageContent : list Value) (w : World) (written : string),
    Forall (fun part => ansiFree (printArg part) = true) messageContent ->
    (forall jsonData k v,
       jsonContent = Some jsonData -> jsonData !! k = Some v ->
       ansiFree k = true /\ ansiFree (printArg v) = true) ->
    stdout (printOutPut clock mapseed logInstance toFile true false (tagOf S)
              jsonContent messageContent w).2
    = stdout w +:+ written ->
    ansiFree written = true.

(** *** The setting of the examples

    A process that has only just started and has opened [app.log], a clock
    that advances by one nanosecond per reading, a map iterator, and a file
    system that refuses the paths under [/proc/]. *)
Definition startWorld : World := mkWorld ∅ ∅ "" 0 0.

Definition demoClock (n : nat) : Time :=
  mkTime 2023 9 5 7 3 9 (12345678 + Z.of_nat n).

Definition demoSeed (n : nat) : list nat := [n; 1%nat].

Definition demoDenied (path : string) : bool := String.prefix "/proc/" path.

Definition demoWorld : World := (Initialize demoDenied "app.log" startWorld).2.

Definition demoLog : LogInstance := mkLogInstance 0.

(** The same process after a first record has gone to the file. *)
Definition demoWorld2 : World :=
  (printOutPut demoClock demoSeed demoLog true false false MessageNormal
     None [VString "first"] demoWorld).2.

(** *** Callers

    A caller's request for one record, and a caller that makes its requests
    one after the other on the same instance. *)
Record Emission : Type := mkEmission {
  toFile : bool;
  toTerminal : bool;
  colored : bool;
  messageType : string;
  jsonContent : option (gmap string Value);
  messageContent : list Value
}.

Definition emit (clock : nat -> Time) (mapseed : nat -> list nat)
    (logInstance : LogInstance) (e : Emission) : Proc unit :=
  printOutPut clock mapseed logInstance (toFile e) (toTerminal e) (colored e)
    (messageType e) (jsonContent e) (messageContent e).

Definition emitAll (clock : nat -> Time) (mapseed : nat -> list nat)
    (logInstance : LogInstance) (es : list Emission) : Proc unit :=
  forEach es (emit clock mapseed logInstance).

(** The map iterations that the file sink and the terminal sink of an
    emission take. *)
Definition fileIterations (e : Emission) : nat :=
  if toFile e then iterations (jsonContent e) else 0%nat.

Definition termIterations (e : Emission) : nat :=
  if toTerminal e then iterations (jsonContent e) else 0%nat.

(** The text that a run of emissions is expected to add to the file and to
    the terminal, when the first of them makes the [t]-th reading of the
    clock and the [r]-th iteration over a map. *)
Fixpoint fileText (clock : nat -> Time) (mapseed : nat -> list nat)
    (t r : nat) (es : list Emission) : string :=
  match es with
  | [] => ""
  | e :: es' =>
      (if toFile e
       then fileRecord (messagePrefixOf (clock t) (messageType e))
              (Sprint (messageContent e)) (dataText mapseed r (jsonContent e))
       else "")
      +:+ fileText clock mapseed (S t) (r + fileIterations e + termIterations e) es'
  end.

Fixpoint termText (clock : nat -> Time) (mapseed : nat -> list nat)
    (t r : nat) (es : list Emission) : string :=
  match es with
  | [] => ""
  | e :: es' =>
      (if toTerminal e
       then termRecord (colored e) (colorCodeOf (messageType e))
              (messagePrefixOf (clock t) (messageType e))
              (Sprint (messageContent e))
              (dataText mapseed (r + fileIterations e) (jsonContent e))
       else "")
      +:+ termText clock mapseed (S t) (r + fileIterations e + termIterations e) es'
  end.

(** The message parts joined by the rule for neighbours: a space between
    two parts exactly when neither of them is a string. *)
Fixpoint joinParts (parts : list Value) : string :=
  match parts with
  | [] => ""
  | x :: rest =>
      printArg x
      +:+ match rest with
          | [] => ""
          | y :: _ => if isString x || isString y then "" else " "
          end
      +:+ joinParts rest
  end.

(** [nuls n]: [n] zero bytes, what a gap in a file reads as. *)
Fixpoint nuls (n : nat) : string :=
  match n with
  | O => ""
  | S n' => String "000" (nuls n')
  end.

(** ** Facts about strings *)

Lemma str_app_nil_l (s : string) : "" +:+ s = s.
Proof. reflexivity. Qed.

Lemma str_app_cons (c : ascii) (s t : string) :
  String c s +:+ t = String c (s +:+ t).
Proof. reflexivity. Qed.

Lemma str_app_nil_r (s : string) : s +:+ "" = s.
Proof. induction s as [|c s IH]; [done|]. by rewrite str_app_cons, IH. Qed.

Lemma str_app_assoc (s t u : string) : s +:+ t +:+ u = (s +:+ t) +:+ u.
Proof. induction s as [|c s IH]; [done|]. by rewrite !str_app_cons, IH. Qed.

Lemma str_length_app (s t : string) :
  String.length (s +:+ t) = (String.length s + String.length t)%nat.
Proof. induction s as [|c s IH]; [done|]. rewrite str_app_cons. cbn. by rewrite IH. Qed.

Lemma str_drop_nil (n : nat) : Str.drop n "" = "".
Proof. by destruct n. Qed.

Lemma str_drop_drop (n m : nat) (s : string) :
  Str.drop m (Str.drop n s) = Str.drop (n + m) s.
Proof.
  revert s; induction n as [|n IH]; intros s; [done|].
  destruct s as [|c s]; cbn; [apply str_drop_nil | apply IH].
Qed.

Lemma str_In_app (c : ascii) (s t : string) :
  Str.In c (s +:+ t) <-> Str.In c s \/ Str.In c t.
Proof.
  induction s as [|d s IH]; [cbn; tauto|].
  rewrite str_app_cons. cbn. rewrite IH. tauto.
Qed.

(** *** Substrings *)

(** Two ways to cut the same string overlap in a common middle part. *)
Lemma str_app_eq_app (s1 s2 t1 t2 : string) :
  s1 +:+ s2 = t1 +:+ t2 ->
  exists m, (s1 = t1 +:+ m /\ t2 = m +:+ s2) \/ (t1 = s1 +:+ m /\ s2 = m +:+ t2).
Proof.
  revert t1; induction s1 as [|c s1 IH]; intros t1 E.
  - exists t1. right. by rewrite !str_app_nil_l in *.
  - destruct t1 as [|d t1].
    + exists (String c s1). left. by rewrite str_app_nil_l in *.
    + rewrite !str_app_cons in E. injection E as -> E.
      destruct (IH _ E) as [m [[-> ->] | [-> ->]]]; exists m; [left | right];
        by rewrite ?str_app_cons.
Qed.

Lemma str_In_head (c : ascii) (s : string) : Str.In c (String c s).
Proof. by left. Qed.

Lemma str_occurs_here (p post : string) : Str.occurs p (p +:+ post).
Proof. by exists "", post. Qed.

Lemma str_occurs_app_r (p u v : string) : Str.occurs p v -> Str.occurs p (u +:+ v).
Proof.
  intros (pre & post & ->). exists (u +:+ pre), post.
  by rewrite <- !str_app_assoc.
Qed.

(** A pattern cannot begin inside a string that lacks its first byte. *)
Lemma str_occurs_skip (e : ascii) (p u v : string) :
  ~ Str.In e u ->
  Str.occurs (String e p) (u +:+ v) -> Str.occurs (String e p) v.
Proof.
  intros Hu (pre & post & E).
  destruct (str_app_eq_app _ _ _ _ E) as [m [[-> E'] | [-> ->]]].
  - destruct m as [|c m].
    + rewrite str_app_nil_l in E'. rewrite <- E'. apply str_occurs_here.
    + rewrite !str_app_cons in E'. injection E' as <- _.
      destruct Hu. apply str_In_app. right. apply str_In_head.
  - by exists m, post.
Qed.

Lemma str_not_occurs (e : ascii) (p u : string) :
  ~ Str.In e u -> ~ Str.occurs (String e p) u.
Proof.
  intros Hu H. rewrite <- (str_app_nil_r u) in H.
  apply (str_occurs_skip e p u "" Hu) in H as (pre & post & E).
  destruct pre; discriminate E.
Qed.

(** A pattern cannot run across a byte that it does not contain. *)
Lemma str_occurs_cut (p u v : string) (c : ascii) :
  ~ Str.In c p ->
  Str.occurs p (u +:+ String c v) -> Str.occurs p u \/ Str.occurs p v.
Proof.
  intros Hc (pre & post & E).
  destruct (str_app_eq_app _ _ _ _ E) as [m [[-> E'] | [-> E']]].
  - left. symmetry in E'.
    destruct (str_app_eq_app _ _ _ _ E') as [m' [[-> ->] | [-> E'']]].
    + by exists pre, m'.
    + destruct m' as [|d m'].
      * rewrite str_app_nil_r. exists pre, "". by rewrite str_app_nil_r.
      * rewrite str_app_cons in E''. injection E'' as -> _.
        destruct Hc. apply str_In_app. right. apply str_In_head.
  - right. destruct m as [|d m].
    + rewrite str_app_nil_l in E'. destruct p as [|d p].
      * by exists "", v.
      * rewrite str_app_cons in E'. injection E' as -> _.
        destruct Hc. apply str_In_head.
    + rewrite str_app_cons in E'. injection E' as _ ->. by exists m, post.
Qed.

(** [Str.contains] decides [Str.occurs]. *)
Lemma str_prefix_app (p post : string) : String.prefix p (p +:+ post) = true.
Proof.
  induction p as [|c p IH]; [by destruct post|].
  rewrite str_app_cons. cbn. by destruct (ascii_dec c c).
Qed.

Lemma str_prefix_inv (p s : string) :
  String.prefix p s = true -> exists post, s = p +:+ post.
Proof.
  revert s; induction p as [|c p IH]; intros s H.
  - by exists s.
  - destruct s as [|d s]; [done|]. cbn in H.
    destruct (ascii_dec c d) as [->|]; [|done].
    destruct (IH _ H) as [post ->]. by exists post.
Qed.

Lemma str_contains_occurs (p s : string) :
  Str.contains p s = true <-> Str.occurs p s.
Proof.
  split.
  - induction s as [|c s IH]; cbn [Str.contains]; intros H.
    + rewrite orb_false_r in H. apply str_prefix_inv in H as [post ->].
      apply str_occurs_here.
    + apply orb_true_iff in H as [H|H].
      * apply str_prefix_inv in H as [post ->]. apply str_occurs_here.
      * apply (str_occurs_app_r p (String c "") s), IH, H.
  - intros (pre & post & ->). induction pre as [|c pre IH].
    + rewrite str_app_nil_l.
      destruct (p +:+ post) eqn:E; cbn [Str.contains]; rewrite <- E;
        by rewrite str_prefix_app.
    + rewrite str_app_cons. cbn [Str.contains]. by rewrite IH, orb_true_r.
Qed.

Lemma str_contains_false (p s : string) :
  Str.contains p s = false <-> ~ Str.occurs p s.
Proof. rewrite <- str_contains_occurs. by destruct (Str.contains p s). Qed.

Lemma str_count_app (c : ascii) (s t : string) :
  Str.count c (s +:+ t) = (Str.count c s + Str.count c t)%nat.
Proof.
  induction s as [|d s IH]; [done|].
  rewrite str_app_cons. cbn [Str.count]. rewrite IH. lia.
Qed.

Lemma str_count_notin (c : ascii) (s : string) :
  ~ Str.In c s -> Str.count c s = 0%nat.
Proof.
  induction s as [|d s IH]; [done|]. cbn. intros H.
  destruct (Ascii.eqb_spec d c) as [->|_]; [tauto|].
  rewrite IH; tauto.
Qed.

(** ** Sequences of writes *)

Lemma pwrite_app_length (a b r : string) :
  pwrite (String.length a) b (a +:+ r) = a +:+ pwrite 0 b r.
Proof.
  induction a as [|c a IH]; [done|].
  rewrite !str_app_cons. cbn [String.length pwrite]. by rewrite IH.
Qed.

(** Two writes in a row are one write of the concatenation. *)
Lemma pwrite_pwrite (off : nat) (a b c : string) :
  pwrite (off + String.length a) b (pwrite off a c) = pwrite off (a +:+ b) c.
Proof.
  revert c; induction off as [|off IH]; intros c.
  - cbn [pwrite Nat.add]. rewrite pwrite_app_length. cbn [pwrite].
    rewrite str_drop_drop, str_length_app. by rewrite str_app_assoc.
  - cbn [pwrite Nat.add]. destruct c as [|d c]; cbn [pwrite]; by rewrite IH.
Qed.

(** A write at the end of the file appends. *)
Lemma pwrite_end (a c : string) : pwrite (String.length c) a c = c +:+ a.
Proof.
  rewrite <- (str_app_nil_r c) at 2. rewrite pwrite_app_length.
  cbn [pwrite]. rewrite str_drop_nil. by rewrite str_app_nil_r.
Qed.

Lemma wfile_wfile (f : File) (a b : string) (w : World) :
  wfile f b (wfile f a w) = wfile f (a +:+ b) w.
Proof.
  destruct a as [|c a]; [done|].
  destruct b as [|d b]; [by rewrite str_app_nil_r|].
  rewrite str_app_cons. unfold wfile.
  destruct (fds w !! f) as [[path off]|] eqn:E; cbn.
  - rewrite !lookup_insert_eq. cbn. f_equal.
    + rewrite insert_insert_eq. f_equal.
      by rewrite <- str_app_cons, <- pwrite_pwrite.
    + rewrite insert_insert_eq, str_length_app. do 2 f_equal. cbn. lia.
  - by rewrite E.
Qed.

Lemma wout_wout (a b : string) (w : World) :
  wout b (wout a w) = wout (a +:+ b) w.
Proof. unfold wout; cbn. by rewrite str_app_assoc. Qed.

Lemma wfile_wout (f : File) (a b : string) (w : World) :
  wfile f a (wout b w) = wout b (wfile f a w).
Proof.
  unfold wfile, wout; cbn.
  by destruct a, (fds w !! f) as [[path off]|].
Qed.

Lemma wfile_ranged (f : File) (a : string) (w : World) :
  wfile f a (ranged w) = ranged (wfile f a w).
Proof.
  unfold wfile, ranged; cbn.
  by destruct a, (fds w !! f) as [[path off]|].
Qed.

Lemma wout_nil (w : World) : wout "" w = w.
Proof. destruct w. unfold wout; cbn. by rewrite str_app_nil_r. Qed.

Lemma wfile_nil (f : File) (w : World) : wfile f "" w = w.
Proof. done. Qed.

Lemma wout_ranged (a : string) (w : World) :
  wout a (ranged w) = ranged (wout a w).
Proof. done. Qed.

(** The fields that a write leaves alone. *)
Lemma wfile_stdout f a w : stdout (wfile f a w) = stdout w.
Proof. unfold wfile. by destruct a, (fds w !! f) as [[path off]|]. Qed.

Lemma wfile_ticks f a w : ticks (wfile f a w) = ticks w.
Proof. unfold wfile. by destruct a, (fds w !! f) as [[path off]|]. Qed.

Lemma wfile_ranges f a w : ranges (wfile f a w) = ranges w.
Proof. unfold wfile. by destruct a, (fds w !! f) as [[path off]|]. Qed.

(** ** The effect of [generateJSON] and [printOutPut] *)

Section Runs.

Variable clock : nat -> Time.
Variable mapseed : nat -> list nat.

Lemma Sprint_string (s : string) : Sprint [VString s] = s.
Proof. unfold Sprint. cbn. apply str_app_nil_r. Qed.

Lemma Sprint_two_strings (s t : string) : Sprint [VString s; VString t] = s +:+ t.
Proof. unfold Sprint. cbn. by rewrite str_app_nil_r. Qed.

(** No space is added around the value of an entry: its neighbours are
    strings. *)
Lemma Sprint_fragment (k : string) (v : Value) :
  Sprint [VString " ("; VString k; VString ": "; v; VString ")"] = fragment (k, v).
Proof.
  unfold Sprint, fragment. cbn. rewrite andb_false_r. done.
Qed.

Lemma forEach_entries (f : File) (nf nt : bool) (es : list (string * Value)) (w : World) :
  forEach es (fun '(jsonKey, jsonValue) =>
    when nf
      (Fprint f
         [VString " ("; VString jsonKey; VString ": "; jsonValue; VString ")"]) ;;
    when nt
      (Print [VString " ("; VString jsonKey; VString ": "; jsonValue; VString ")"])) w
  = (Returned tt,
     whenW nt (wout (Str.concat (fragment <$> es)))
       (whenW nf (wfile f (Str.concat (fragment <$> es))) w)).
Proof.
  revert w; induction es as [|[k v] es IH]; intros w.
  - cbn. destruct nf, nt; cbn [whenW]; by rewrite ?wout_nil, ?wfile_nil.
  - cbn [forEach]. unfold mbind at 1, Proc_bind at 1.
    unfold mbind at 1, Proc_bind at 1.
    destruct nf, nt; cbn [when whenW Fprint Print mret Proc_ret];
      rewrite IH; cbn [whenW fmap list_fmap Str.concat];
      rewrite ?Sprint_fragment, ?wfile_wout, ?wfile_wfile, ?wout_wout; done.
Qed.

Lemma bind_run {A B : Type} (m : Proc A) (k : A -> Proc B) (w w' : World) (a : A) :
  m w = (Returned a, w') -> (m ≫= k) w = k a w'.
Proof. intros E. unfold mbind, Proc_bind. by rewrite E. Qed.

Lemma when_Fprint_run (b : bool) (f : File) (a : list Value) (w : World) :
  when b (Fprint f a) w = (Returned tt, whenW b (wfile f (Sprint a)) w).
Proof. by destruct b. Qed.

Lemma when_Print_run (b : bool) (a : list Value) (w : World) :
  when b (Print a) w = (Returned tt, whenW b (wout (Sprint a)) w).
Proof. by destruct b. Qed.

Lemma whenW_ranges_file b f a w : ranges (whenW b (wfile f a) w) = ranges w.
Proof. destruct b; [apply wfile_ranges | done]. Qed.

Lemma whenW_ranges_out b a w : ranges (whenW b (wout a) w) = ranges w.
Proof. by destruct b. Qed.

(** [generateJSON] reads the map once and writes the rendered entries,
    as one run of bytes, to each sink that is asked for. *)
Lemma generateJSON_run (logInstance : LogInstance) (nf nt : bool)
    (jsonData : gmap string Value) (w : World) :
  let entries := permute (mapseed (ranges w)) (map_to_list jsonData) in
  generateJSON mapseed logInstance nf nt jsonData w
  = (Returned tt,
     whenW nt (wout (renderEntries entries))
       (whenW nf (wfile (logDestination logInstance) (renderEntries entries))
          (ranged w))).
Proof.
  intros entries. unfold generateJSON.
  erewrite bind_run by apply when_Fprint_run.
  erewrite bind_run by apply when_Print_run.
  erewrite bind_run by reflexivity.
  erewrite bind_run by apply forEach_entries.
  erewrite bind_run by apply when_Fprint_run.
  rewrite when_Print_run.
  rewrite whenW_ranges_out, whenW_ranges_file. fold entries.
  rewrite !Sprint_string. unfold renderEntries.
  destruct nf, nt; cbn [whenW];
    rewrite <- ?wout_ranged, <- ?wfile_ranged,
            ?wfile_wout, ?wfile_wfile, ?wout_wout, <- ?str_app_assoc; done.
Qed.

Lemma Sprintln_nil : Sprintln [] = newline.
Proof. done. Qed.

Lemma Sprintln_string (s : string) : Sprintln [VString s] = s +:+ newline.
Proof. done. Qed.

Lemma json_run (logInstance : LogInstance) (nf nt : bool)
    (jsonContent : option (gmap string Value)) (w : World) :
  match jsonContent with
  | Some jsonData => generateJSON mapseed logInstance nf nt jsonData
  | None => mret tt
  end w
  = (Returned tt,
     whenW nt (wout (dataText mapseed (ranges w) jsonContent))
       (whenW nf (wfile (logDestination logInstance)
                    (dataText mapseed (ranges w) jsonContent))
          (rangedIf jsonContent w))).
Proof.
  destruct jsonContent as [jsonData|]; cbn [dataText rangedIf].
  - apply generateJSON_run.
  - by destruct nf, nt; cbn [whenW]; rewrite ?wout_nil, ?wfile_nil.
Qed.

(** The file branch of [printOutPut] writes one record. *)
Lemma fileSink_run (logInstance : LogInstance) (prefix : string)
    (jsonContent : option (gmap string Value)) (messageContent : list Value)
    (w : World) :
  (Fprint (logDestination logInstance) [VString prefix] ;;
   Fprint (logDestination logInstance) messageContent ;;
   match jsonContent with
   | Some jsonData => generateJSON mapseed logInstance true false jsonData
   | None => mret tt
   end ;;
   Fprintln (logDestination logInstance) []) w
  = (Returned tt,
     fileSink mapseed (logDestination logInstance) prefix
       jsonContent messageContent w).
Proof.
  erewrite bind_run by reflexivity.
  erewrite bind_run by reflexivity.
  erewrite bind_run by apply json_run.
  unfold Fprintln, fileSink, fileRecord. cbn [whenW].
  rewrite !wfile_ranges, Sprint_string, Sprintln_nil.
  destruct jsonContent as [jsonData|]; cbn [rangedIf];
    rewrite <- ?wfile_ranged, !wfile_wfile, <- ?str_app_assoc; done.
Qed.

(** The two terminal branches of [printOutPut] write one record. *)
Lemma termSink_colored_run (logInstance : LogInstance) (colorCode prefix : string)
    (jsonContent : option (gmap string Value)) (messageContent : list Value)
    (w : World) :
  (Print [VString colorCode; VString prefix] ;;
   Print messageContent ;;
   match jsonContent with
   | Some jsonData => generateJSON mapseed logInstance false true jsonData
   | None => mret tt
   end ;;
   Println [VString ColorDefault]) w
  = (Returned tt,
     termSink mapseed true colorCode prefix jsonContent messageContent w).
Proof.
  erewrite bind_run by reflexivity.
  erewrite bind_run by reflexivity.
  erewrite bind_run by apply json_run.
  unfold Println, termSink, termRecord. cbn [whenW ranges wout].
  rewrite Sprint_two_strings, Sprintln_string.
  destruct jsonContent as [jsonData|]; cbn [rangedIf];
    rewrite <- ?wout_ranged, !wout_wout, <- ?str_app_assoc; done.
Qed.

Lemma termSink_plain_run (logInstance : LogInstance) (prefix : string)
    (jsonContent : option (gmap string Value)) (messageContent : list Value)
    (w : World) :
  (Print [VString prefix] ;;
   Print messageContent ;;
   match jsonContent with
   | Some jsonData => generateJSON mapseed logInstance false true jsonData
   | None => mret tt
   end ;;
   Println []) w
  = (Returned tt,
     termSink mapseed false "" prefix jsonContent messageContent w).
Proof.
  erewrite bind_run by reflexivity.
  erewrite bind_run by reflexivity.
  erewrite bind_run by apply json_run.
  unfold Println, termSink, termRecord. cbn [whenW ranges wout].
  rewrite Sprint_string, Sprintln_nil.
  destruct jsonContent as [jsonData|]; cbn [rangedIf];
    rewrite <- ?wout_ranged, !wout_wout, <- ?str_app_assoc; done.
Qed.

(** The layout [2006-01-02 15:04:05] yields the fields of the time in the
    form [YYYY-MM-DD HH:MM:SS], and the string that [printOutPut] builds
    from it is the prefix. *)
Lemma Format_layout (t : Time) :
  Format t "2006-01-02 15:04:05" = formatYMDHMS t.
Proof. unfold formatYMDHMS. cbn [Format]. by rewrite str_app_nil_r. Qed.

Lemma messagePrefix_built (t : Time) (messageType : string) :
  (Format t "2006-01-02 15:04:05" +:+ ":" +:+
   Itoa (Z.quot (Nanosecond t) 1000000) +:+ ":" +:+
   Itoa (Nanosecond t)) +:+ messageType
  = messagePrefixOf t messageType.
Proof.
  unfold messagePrefixOf. rewrite Format_layout.
  by rewrite <- !str_app_assoc.
Qed.

(** [printOutPut] as a whole: it ends the process with status 1 exactly
    when the message type is [MessageFatal] and returns otherwise, and in
    both cases it leaves [emitWorld] behind. *)
Lemma printOutPut_run (logInstance : LogInstance)
    (needFileOutput needTerminalOutput needTerminalColoredOutput : bool)
    (messageType : string) (jsonContent : option (gmap string Value))
    (messageContent : list Value) (w : World) :
  printOutPut clock mapseed logInstance needFileOutput needTerminalOutput
    needTerminalColoredOutput messageType jsonContent messageContent w
  = (if String.eqb messageType MessageFatal then Exited 1 else Returned tt,
     emitWorld clock mapseed logInstance needFileOutput needTerminalOutput
       needTerminalColoredOutput messageType jsonContent messageContent w).
Proof.
  unfold printOutPut, emitWorld.
  erewrite bind_run by reflexivity.
  cbv zeta. rewrite messagePrefix_built. fold (colorCodeOf messageType).
  destruct needFileOutput, needTerminalOutput, needTerminalColoredOutput;
    cbn [when andb whenW];
    (erewrite bind_run by first [apply fileSink_run | reflexivity]);
    (erewrite bind_run
       by first [apply termSink_colored_run | apply termSink_plain_run
                | reflexivity]);
    by destruct (String.eqb messageType MessageFatal).
Qed.

End Runs.

(** ** What an emission leaves in each part of the world *)

Section Emission.

Variable clock : nat -> Time.
Variable mapseed : nat -> list nat.
Variable logInstance : LogInstance.
Variables toFile toTerminal colored : bool.
Variable messageType : string.
Variable jsonContent : option (gmap string Value).
Variable messageContent : list Value.
Variable w : World.

Let prefix := messagePrefixOf (clock (ticks w)) messageType.
Let after := emitWorld clock mapseed logInstance toFile toTerminal colored
               messageType jsonContent messageContent w.

Lemma rangedIf_ranges {A : Type} (o : option A) (w0 : World) :
  ranges (rangedIf o w0) = (ranges w0 + iterations o)%nat.
Proof. destruct o; cbn; lia. Qed.

Lemma fileStage_ranges :
  ranges (whenW toFile
            (fileSink mapseed (logDestination logInstance) prefix
               jsonContent messageContent) (tick w))
  = (ranges w + (if toFile then iterations jsonContent else 0))%nat.
Proof.
  destruct toFile; cbn [whenW]; [|cbn; lia].
  unfold fileSink. by rewrite wfile_ranges, rangedIf_ranges.
Qed.

Lemma fileStage_stdout :
  stdout (whenW toFile
            (fileSink mapseed (logDestination logInstance) prefix
               jsonContent messageContent) (tick w))
  = stdout w.
Proof.
  destruct toFile; cbn [whenW]; [|done].
  unfold fileSink. rewrite wfile_stdout. by destruct jsonContent.
Qed.

Lemma wfile_at_end (f : File) (path content data : string) (w0 : World) :
  file_at_end f path content w0 ->
  file_at_end f path (content +:+ data) (wfile f data w0).
Proof.
  intros [Hf Hd]. destruct data as [|c data]; [by rewrite str_app_nil_r|].
  unfold wfile, file_at_end. rewrite Hf, Hd. cbn.
  rewrite !lookup_insert_eq, pwrite_end, str_length_app. done.
Qed.

Lemma file_at_end_whenW_out (f : File) (path content : string) (b : bool)
    (w0 : World) :
  file_at_end f path content w0 ->
  file_at_end f path content
    (whenW b (termSink mapseed colored (colorCodeOf messageType) prefix
                jsonContent messageContent) w0).
Proof. intros H. destruct b; [|done]. by destruct jsonContent. Qed.

Lemma emitWorld_ticks : ticks after = S (ticks w).
Proof.
  unfold after, emitWorld, termSink, fileSink.
  destruct toTerminal, toFile, jsonContent;
    cbn [whenW rangedIf ticks wout ranged]; by rewrite ?wfile_ticks.
Qed.

Lemma emitWorld_stdout :
  stdout after
  = stdout w +:+
    (if toTerminal
     then termRecord colored (colorCodeOf messageType) prefix
            (Sprint messageContent)
            (dataText mapseed
               (ranges w + (if toFile then iterations jsonContent else 0))
               jsonContent)
     else "").
Proof.
  unfold after, emitWorld. fold prefix.
  destruct toTerminal; cbn [whenW].
  - unfold termSink. rewrite fileStage_ranges.
    assert (forall o w0, stdout (rangedIf (A:=gmap string Value) o w0) = stdout w0)
      as E by (by intros [] ?).
    cbn [stdout wout]. by rewrite E, fileStage_stdout.
  - by rewrite fileStage_stdout, str_app_nil_r.
Qed.

Lemma emitWorld_file_at_end (path content : string) :
  file_at_end (logDestination logInstance) path content w ->
  file_at_end (logDestination logInstance) path
    (content +:+
     (if toFile
      then fileRecord prefix (Sprint messageContent)
             (dataText mapseed (ranges w) jsonContent)
      else ""))
    after.
Proof.
  intros H. unfold after, emitWorld. fold prefix.
  apply file_at_end_whenW_out.
  destruct toFile; cbn [whenW].
  - unfold fileSink. apply wfile_at_end.
    by destruct jsonContent.
  - by rewrite str_app_nil_r.
Qed.

End Emission.

(** ** The prefix *)

Lemma messagePrefixOf_tag (t : Time) (s : Severity) :
  messagePrefixOf t (tagOf s) = prefixOf t s.
Proof. reflexivity. Qed.

Lemma colorCodeOf_tag (s : Severity) : colorCodeOf (tagOf s) = colorOf s.
Proof. by destruct s. Qed.

(** The prefix consists of digits, signs, colons, blanks and the letters
    and brackets of the tags. *)
Lemma NilEmpty_chars (c : ascii) (u : Decimal.uint) :
  Str.In c (NilEmpty.string_of_uint u) -> Str.In c "0123456789".
Proof. induction u; cbn in *; intuition. Qed.

Lemma NilZero_chars (c : ascii) (u : Decimal.uint) :
  Str.In c (NilZero.string_of_uint u) -> Str.In c "0123456789".
Proof.
  intros H. destruct u; [cbn in *; intuition | exact (NilEmpty_chars _ _ H) ..].
Qed.

Lemma Itoa_chars (c : ascii) (z : Z) :
  Str.In c (Itoa z) -> Str.In c "-0123456789".
Proof.
  unfold Itoa, NilZero.string_of_int.
  destruct (Z.to_int z) as [u|u]; intros H.
  - right. exact (NilZero_chars _ _ H).
  - destruct H as [H|H]; [by left | right; exact (NilZero_chars _ _ H)].
Qed.

Lemma Itoa_nonempty (z : Z) : Itoa z <> "".
Proof.
  unfold Itoa, NilZero.string_of_int.
  destruct (Z.to_int z) as [u|u]; [|done]. by destruct u.
Qed.

Lemma zeros_chars (c : ascii) (n : nat) :
  Str.In c (zeros n) -> Str.In c "-0123456789".
Proof.
  induction n as [|n IH]; cbn [zeros Str.In]; [done|].
  intros [<-|H]; [cbn; tauto | by apply IH].
Qed.

Lemma appendInt_chars (c : ascii) (x : Z) (width : nat) :
  Str.In c (appendInt x width) -> Str.In c "-0123456789".
Proof.
  unfold appendInt. rewrite !str_In_app. intros [H|[H|H]].
  - destruct (x <? 0); cbn in H; [|done]. destruct H as [<-|[]]. by left.
  - by apply zeros_chars in H.
  - by apply Itoa_chars in H.
Qed.

Lemma appendInt_nonempty (x : Z) (width : nat) : appendInt x width <> "".
Proof.
  unfold appendInt. destruct (x <? 0); [done|].
  rewrite str_app_nil_l. destruct (zeros _); [|done].
  rewrite str_app_nil_l. apply Itoa_nonempty.
Qed.

Lemma timeAlphabet_prefixAlphabet (c : ascii) :
  Str.In c "-0123456789" -> Str.In c prefixAlphabet.
Proof. cbn. intuition. Qed.

Lemma formatYMDHMS_chars (c : ascii) (t : Time) :
  Str.In c (formatYMDHMS t) -> Str.In c prefixAlphabet.
Proof.
  unfold formatYMDHMS. rewrite !str_In_app.
  intros [H|[H|[H|[H|[H|[H|[H|[H|[H|[H|H]]]]]]]]]];
    first [ by apply appendInt_chars, timeAlphabet_prefixAlphabet in H
          | destruct H as [<-|[]]; cbn; tauto ].
Qed.

Lemma prefixOf_chars (c : ascii) (t : Time) (s : Severity) :
  Str.In c (prefixOf t s) -> Str.In c prefixAlphabet.
Proof.
  unfold prefixOf, messagePrefixOf. rewrite !str_In_app.
  intros [H|[H|[H|[H|[H|H]]]]].
  - by apply formatYMDHMS_chars in H.
  - destruct H as [<-|[]]; cbn; tauto.
  - by apply Itoa_chars, timeAlphabet_prefixAlphabet in H.
  - destruct H as [<-|[]]; cbn; tauto.
  - by apply Itoa_chars, timeAlphabet_prefixAlphabet in H.
  - destruct s; cbn in H; cbn; intuition.
Qed.

(** A prefix begins with a byte of the formatted time, whatever the tag. *)
Lemma messagePrefixOf_head (t : Time) (messageType : string) :
  exists c rest,
    messagePrefixOf t messageType = String c rest /\ Str.In c "-0123456789".
Proof.
  unfold messagePrefixOf, formatYMDHMS.
  pose proof (appendInt_nonempty (Year t) 4) as Hne.
  pose proof (fun c => appendInt_chars c (Year t) 4) as Hc.
  destruct (appendInt (Year t) 4) as [|c y]; [done|].
  rewrite !str_app_cons. eexists _, _. split; [done|].
  apply Hc, str_In_head.
Qed.

(** The millisecond component of a well-formed time lies in [0, 999]. *)
Lemma millisecond_range (t : Time) :
  wf_Time t -> 0 <= Z.quot (Nanosecond t) 1000000 <= 999.
Proof.
  intros (_ & _ & _ & _ & _ & Hn).
  rewrite Z.quot_div_nonneg by lia.
  split; [apply Z.div_pos; lia|].
  apply Z.lt_succ_r, Z.div_lt_upper_bound; lia.
Qed.

(** ** The order of a map iteration *)

Lemma shuffle_Permutation {A : Type} (fuel : nat) (choices : list nat) (l : list A) :
  (length l <= fuel)%nat -> shuffle fuel choices l ≡ₚ l.
Proof.
  revert choices l; induction fuel as [|fuel IH]; intros choices l Hlen.
  - destruct l; [done|]. cbn in Hlen. lia.
  - cbn [shuffle]. destruct l as [|x l]; [done|].
    set (i := Nat.modulo (hd O choices) (length (x :: l))).
    assert (i < length (x :: l))%nat as Hi
      by (apply Nat.mod_upper_bound; cbn; lia).
    destruct (lookup_lt_is_Some_2 _ _ Hi) as [y Hy]. rewrite Hy.
    transitivity (y :: delete i (x :: l));
      [|symmetry; by apply delete_Permutation].
    constructor. apply IH. rewrite length_delete by eauto. cbn in *. lia.
Qed.

(** An iteration visits every entry once. *)
Lemma permute_Permutation {A : Type} (choices : list nat) (l : list A) :
  permute choices l ≡ₚ l.
Proof. unfold permute. apply shuffle_Permutation. lia. Qed.

(** Every order of the entries is the order of some iteration. *)
Lemma permute_complete {A : Type} (l l' : list A) :
  l' ≡ₚ l -> exists choices, permute choices l = l'.
Proof.
  revert l; induction l' as [|x l' IH]; intros l Hp.
  - apply Permutation_nil_l in Hp. subst l. by exists [].
  - assert (x ∈ l) as [i Hi]%list_elem_of_lookup
      by (rewrite <- Hp; left).
    assert (l' ≡ₚ delete i l) as Hd.
    { apply (Permutation_cons_inv (a:=x)). rewrite Hp.
      by apply delete_Permutation. }
    destruct (IH _ Hd) as [choices Hc]. exists (i :: choices).
    unfold permute in *. pose proof (lookup_lt_Some _ _ _ Hi) as Hlt.
    destruct l as [|y l]; [cbn in Hlt; lia|].
    cbn [shuffle length hd tl]. rewrite Nat.mod_small by done.
    rewrite Hi. f_equal. rewrite <- Hc. f_equal.
    rewrite length_delete by eauto. cbn. lia.
Qed.

Lemma permute_nil {A : Type} (choices : list nat) : permute choices (@nil A) = [].
Proof. done. Qed.

Lemma permute_singleton {A : Type} (choices : list nat) (x : A) :
  permute choices [x] = [x].
Proof. apply Permutation_singleton_r, permute_Permutation. Qed.

(** ** Parts next to each other *)

(** [fmt.Print] and [fmt.Fprint] put a space between two operands when
    neither is a string. *)
Lemma Sprint_pair (x y : Value) :
  Sprint [x; y]
  = printArg x +:+ (if isString x || isString y then "" else " ") +:+ printArg y.
Proof.
  unfold Sprint. cbn. rewrite str_app_nil_r.
  by destruct (isString x), (isString y).
Qed.

Lemma prefixOf_no_newline (t : Time) (s : Severity) :
  Str.count "010" (prefixOf t s) = 0%nat.
Proof.
  apply str_count_notin. intros H%prefixOf_chars.
  cbn in H. intuition discriminate.
Qed.

(** ** Escape sequences in a record *)

(** Every escape sequence starts with the escape character and contains
    none of the bytes that separate the pieces of a record. *)
Lemma isAnsi_shape (p : string) :
  isAnsi p ->
  exists p', p = String ESC p' /\
    ~ Str.In " " p /\ ~ Str.In "010" p /\ ~ Str.In ":" p /\ ~ Str.In ")" p.
Proof.
  intros [-> | [-> | ->]]; eexists; (split; [reflexivity|]);
    cbn; intuition discriminate.
Qed.

Lemma ansiFree_spec (s : string) :
  ansiFree s = true <-> forall p, isAnsi p -> ~ Str.occurs p s.
Proof.
  unfold ansiFree.
  rewrite !andb_true_iff, !negb_true_iff, !str_contains_false. split.
  - by intros [[H1 H2] H3] p [-> | [-> | ->]].
  - intros H. repeat split; apply H; unfold isAnsi; tauto.
Qed.

(** Goals that say that a byte is not among the bytes of a literal. *)
Ltac by_chars := cbv [Str.In ESC String.append newline]; intuition discriminate.

Section PatternFree.

Variable p' : string.
Let p := String ESC p'.
Hypothesis p_blank : ~ Str.In " " p.
Hypothesis p_newline : ~ Str.In "010" p.
Hypothesis p_colon : ~ Str.In ":" p.
Hypothesis p_paren : ~ Str.In ")" p.

(** The fragments of the entries cannot form the pattern when no key and
    no value contains it. *)
Lemma fragments_free (entries : list (string * Value)) (tail : string) :
  Forall (fun e => ~ Str.occurs p e.1 /\ ~ Str.occurs p (printArg e.2)) entries ->
  ~ Str.occurs p tail ->
  ~ Str.occurs p (Str.concat (fragment <$> entries) +:+ tail).
Proof.
  intros Hes Htail. induction Hes as [|[k v] entries [Hk Hv] _ IH]; [done|].
  cbn [fmap list_fmap Str.concat]. unfold fragment at 1. cbn [fst snd].
  rewrite <- !str_app_assoc. intros H.
  apply (str_occurs_skip ESC p' " (") in H; [|by_chars].
  change (": " +:+ printArg v +:+ ")" +:+ Str.concat (fragment <$> entries) +:+ tail)
    with (String ":" (" " +:+ printArg v +:+ String ")"
            (Str.concat (fragment <$> entries) +:+ tail))) in H.
  apply str_occurs_cut in H as [H|H]; [done | | exact p_colon].
  apply (str_occurs_skip ESC p' " ") in H; [|by_chars].
  apply str_occurs_cut in H as [H|H]; [done | done | exact p_paren].
Qed.

(** A record without color codes cannot contain the pattern when neither
    the rendered parts nor a key or value of the data contain it. *)
Lemma plain_record_free (prefix body : string)
    (entries : option (list (string * Value))) :
  ~ Str.In ESC prefix ->
  ~ Str.occurs p body ->
  (forall es, entries = Some es ->
     Forall (fun e => ~ Str.occurs p e.1 /\ ~ Str.occurs p (printArg e.2)) es) ->
  ~ Str.occurs p
      (prefix +:+ body +:+
       match entries with Some es => renderEntries es | None => "" end +:+
       newline).
Proof.
  intros Hprefix Hbody Hes H.
  apply str_occurs_skip in H; [|done].
  destruct entries as [es|].
  - unfold renderEntries in H. rewrite <- !str_app_assoc in H.
    change (" [" +:+ Str.concat (fragment <$> es) +:+ " ]" +:+ newline)
      with (String " " ("[" +:+ Str.concat (fragment <$> es) +:+ " ]" +:+ newline))
      in H.
    apply str_occurs_cut in H as [H|H]; [done | | exact p_blank].
    apply (str_occurs_skip ESC p' "[") in H; [|by_chars].
    revert H. apply fragments_free; [by apply Hes|].
    apply str_not_occurs. by_chars.
  - rewrite str_app_nil_l in H.
    apply str_occurs_cut in H as [H|H]; [done | | exact p_newline].
    revert H. apply (str_not_occurs ESC p' ""). by_chars.
Qed.

End PatternFree.

(** ** The log file over the life of an instance *)

(** [Initialize] hands out a descriptor at the end of the empty file. *)
Lemma Initialize_file_at_end (denied : string -> bool) (path : string)
    (w w' : World) (logInstance : LogInstance) :
  Initialize denied path w = (Returned (Some logInstance), w') ->
  file_at_end (logDestination logInstance) path "" w'.
Proof.
  unfold Initialize, os_Create, mbind, Proc_bind.
  destruct (denied path); [done|]. intros [= <- <-].
  split; cbn; by rewrite lookup_insert_eq.
Qed.

(** Every emission keeps the descriptor at the end of the file, so the
    records of successive emissions follow one another. *)
Lemma printOutPut_file_at_end (clock : nat -> Time) (mapseed : nat -> list nat)
    (logInstance : LogInstance) (toFile toTerminal colored : bool)
    (messageType : string) (jsonContent : option (gmap string Value))
    (messageContent : list Value) (w : World) (path content : string) :
  file_at_end (logDestination logInstance) path content w ->
  exists record,
    file_at_end (logDestination logInstance) path (content +:+ record)
      (printOutPut clock mapseed logInstance toFile toTerminal colored
         messageType jsonContent messageContent w).2.
Proof.
  intros H. rewrite printOutPut_run. cbn [snd].
  eexists. by eapply emitWorld_file_at_end in H.
Qed.

(** A call returns exactly when the message type is not [MessageFatal]. *)
Lemma printOutPut_returns (clock : nat -> Time) (mapseed : nat -> list nat)
    (logInstance : LogInstance) (toFile toTerminal colored : bool)
    (messageType : string) (jsonContent : option (gmap string Value))
    (messageContent : list Value) (w : World) :
  (printOutPut clock mapseed logInstance toFile toTerminal colored
     messageType jsonContent messageContent w).1 = Returned tt
  <-> messageType <> MessageFatal.
Proof.
  rewrite printOutPut_run. cbn [fst].
  destruct (String.eqb_spec messageType MessageFatal); split; done.
Qed.

Lemma demoWorld_at_end : file_at_end (logDestination demoLog) "app.log" "" demoWorld.
Proof. split; vm_compute; reflexivity. Qed.

(** ** The properties of the specification *)

(** C1, as the code has it. An emission with [toFile = true] and
    [toTerminal = false] whose parts are ["a"], [1], [true] appends exactly
    one line to the destination file: the prefix, then [a1 true], then a
    newline.  The parts are rendered in their default formats, and a space
    separates two adjacent parts when neither of them is a string, as here
    [1] and [true]. *)
Theorem file_round_trip (clock : nat -> Time) (mapseed : nat -> list nat)
    (logInstance : LogInstance) (colored : bool) (S : Severity)
    (w : World) (path content : string) :
  file_at_end (logDestination logInstance) path content w ->
  let line := prefixOf (clock (ticks w)) S +:+ "a1 true" +:+ newline in
  disk (printOutPut clock mapseed logInstance true false colored (tagOf S)
          None [VString "a"; VInt 1; VBool true] w).2 !! path
  = Some (content +:+ line) /\
  Str.count "010" line = 1%nat /\
  Sprint [VString "a"; VInt 1; VBool true] = "a1 true".
Proof.
  intros H line. rewrite printOutPut_run. cbn [snd].
  split; [|split; [|done]].
  - eapply emitWorld_file_at_end in H as [_ ->].
    by rewrite messagePrefixOf_tag.
  - unfold line. by rewrite str_count_app, prefixOf_no_newline.
Qed.

Lemma file_round_trip_witness :
  file_at_end (logDestination demoLog) "app.log" "" demoWorld /\
  disk (printOutPut demoClock demoSeed demoLog true false false MessageNormal
          None [VString "a"; VInt 1; VBool true] demoWorld).2 !! "app.log"
  = Some ("2023-09-05 07:03:09:12:12345678 [ INFO ] a1 true" +:+ newline).
Proof.
  split; [exact demoWorld_at_end|].
  destruct (file_round_trip demoClock demoSeed demoLog false Normal demoWorld
              "app.log" "" demoWorld_at_end) as (Hd & _).
  etransitivity; [exact Hd|]. vm_compute. reflexivity.
Defined.

(** C1 as stated does not hold: on the log file that [Initialize] has just
    created, the line is [... a1 true], not [... a1true]. *)
Lemma file_round_trip_counterexample :
  disk (printOutPut demoClock demoSeed demoLog true false false MessageNormal
          None [VString "a"; VInt 1; VBool true] demoWorld).2 !! "app.log"
  = Some ("2023-09-05 07:03:09:12:12345678 [ INFO ] a1 true" +:+ newline) /\
  ~ file_round_trip_claim.
Proof.
  split; [vm_compute; reflexivity|].
  intros H.
  specialize (H demoClock demoSeed demoLog false Normal demoWorld
                "app.log" "" demoWorld_at_end).
  vm_compute in H. discriminate H.
Qed.

(** C2. For every captured time [T] and every severity [S], the prefix that
    an emission builds is the time in the form [YYYY-MM-DD HH:MM:SS] (which
    is what the layout [2006-01-02 15:04:05] yields), a colon, the decimal
    millisecond [Nanosecond T / 1e6], a colon, the decimal nanosecond and
    the tag of [S]; the emission hands exactly this string to the sinks it
    writes to; and the tags are [ [ INFO ] ], [ [ ERRO ] ] and [ [ WARN ] ]
    with one space on each side. *)
Theorem prefix_determinism (clock : nat -> Time) (mapseed : nat -> list nat)
    (logInstance : LogInstance) (toFile toTerminal colored : bool)
    (S : Severity) (jsonContent : option (gmap string Value))
    (messageContent : list Value) (w : World) :
  let T := clock (ticks w) in
  let prefix :=
    formatYMDHMS T +:+ ":" +:+ Itoa (Z.quot (Nanosecond T) 1000000) +:+ ":" +:+
    Itoa (Nanosecond T) +:+ tagOf S in
  Format T "2006-01-02 15:04:05" = formatYMDHMS T /\
  (printOutPut clock mapseed logInstance toFile toTerminal colored (tagOf S)
     jsonContent messageContent w).2
  = whenW toTerminal
      (termSink mapseed colored (colorOf S) prefix jsonContent messageContent)
      (whenW toFile
         (fileSink mapseed (logDestination logInstance) prefix
            jsonContent messageContent)
         (tick w)) /\
  tagOf Normal = " [ INFO ] " /\
  tagOf Fatal = " [ ERRO ] " /\
  tagOf Warning = " [ WARN ] ".
Proof.
  intros T prefix. split; [apply Format_layout|].
  split; [|done].
  rewrite printOutPut_run. cbn [snd]. unfold emitWorld.
  by rewrite colorCodeOf_tag.
Qed.

(** C3. An emission with severity Fatal ends the process with exit status 1
    for every combination of the flags, also when both sink flags are
    false; at that moment the world holds all the writes that were asked
    for (the file record, then the terminal record), and the call does not
    return. *)
Theorem fatal_exits (clock : nat -> Time) (mapseed : nat -> list nat)
    (logInstance : LogInstance) (toFile toTerminal colored : bool)
    (jsonContent : option (gmap string Value))
    (messageContent : list Value) (w : World) :
  let prefix := prefixOf (clock (ticks w)) Fatal in
  let run := printOutPut clock mapseed logInstance toFile toTerminal colored
               (tagOf Fatal) jsonContent messageContent w in
  run.1 = Exited 1 /\
  (forall u : unit, run.1 <> Returned u) /\
  run.2 = whenW toTerminal
            (termSink mapseed colored ColorRed prefix jsonContent messageContent)
            (whenW toFile
               (fileSink mapseed (logDestination logInstance) prefix
                  jsonContent messageContent)
               (tick w)).
Proof.
  intros prefix run. unfold run. rewrite printOutPut_run. cbn [fst snd].
  split; [done|]. split; [done|].
  unfold emitWorld. by rewrite messagePrefixOf_tag.
Qed.

(** C4. With [toTerminal] and [colored], the bytes written to the terminal
    are the color code of the severity, the prefix, the parts, the rendered
    structured data if there is any, the reset code and a newline; the
    color of Normal is the reset code [ESC[0;0m], that of Fatal is red
    [ESC[31;1m] and that of Warning is yellow [ESC[33;1m]. *)
Theorem colored_terminal_record (clock : nat -> Time) (mapseed : nat -> list nat)
    (logInstance : LogInstance) (toFile : bool) (S : Severity)
    (jsonContent : option (gmap string Value))
    (messageContent : list Value) (w : World) :
  stdout (printOutPut clock mapseed logInstance toFile true true (tagOf S)
            jsonContent messageContent w).2
  = stdout w +:+
    colorOf S +:+
    prefixOf (clock (ticks w)) S +:+
    Sprint messageContent +:+
    dataText mapseed (ranges w + (if toFile then iterations jsonContent else 0))
      jsonContent +:+
    ColorDefault +:+ newline /\
  colorOf Normal = String "027" "[0;0m" /\
  colorOf Fatal = String "027" "[31;1m" /\
  colorOf Warning = String "027" "[33;1m".
Proof.
  split; [|done].
  rewrite printOutPut_run. cbn [snd]. rewrite emitWorld_stdout.
  by rewrite messagePrefixOf_tag, colorCodeOf_tag.
Qed.

(** C5, as the code has it. With [toTerminal] and without [colored], for
    every severity, the bytes that the emission writes to the terminal
    contain none of the three escape sequences, provided that the message
    as it is printed (the parts joined by [fmt.Print]) contains none and
    that no key and no value of the structured data contains one. *)
Theorem color_gating (clock : nat -> Time) (mapseed : nat -> list nat)
    (logInstance : LogInstance) (toFile : bool) (S : Severity)
    (jsonContent : option (gmap string Value))
    (messageContent : list Value) (w : World) :
  ansiFree (Sprint messageContent) = true ->
  (forall jsonData k v,
     jsonContent = Some jsonData -> jsonData !! k = Some v ->
     ansiFree k = true /\ ansiFree (printArg v) = true) ->
  let written :=
    prefixOf (clock (ticks w)) S +:+ Sprint messageContent +:+
    dataText mapseed (ranges w + (if toFile then iterations jsonContent else 0))
      jsonContent +:+
    newline in
  stdout (printOutPut clock mapseed logInstance toFile true false (tagOf S)
            jsonContent messageContent w).2
  = stdout w +:+ written /\
  ansiFree written = true.
Proof.
  intros Hbody Hdata written. split.
  - rewrite printOutPut_run. cbn [snd]. rewrite emitWorld_stdout.
    unfold termRecord. by rewrite messagePrefixOf_tag.
  - apply ansiFree_spec. intros p Hp.
    destruct (isAnsi_shape p Hp) as (p' & -> & Hb & Hn & Hc & Hpar).
    set (n := (ranges w + (if toFile then iterations jsonContent else 0))%nat)
      in written.
    set (entries := (fun m : gmap string Value =>
                       permute (mapseed n) (map_to_list m)) <$> jsonContent).
    assert (dataText mapseed n jsonContent
            = match entries with Some es => renderEntries es | None => "" end)
      as E by (by destruct jsonContent).
    unfold written. rewrite E.
    apply (plain_record_free p' Hb Hn Hc Hpar).
    + intros Hin%prefixOf_chars. revert Hin. unfold prefixAlphabet. by_chars.
    + apply ansiFree_spec; [exact Hbody | exact Hp].
    + intros es Hes. destruct jsonContent as [jsonData|]; [|done].
      injection Hes as <-. apply Forall_forall. intros [k v] Hin.
      rewrite permute_Permutation in Hin. apply elem_of_map_to_list in Hin.
      destruct (Hdata jsonData k v eq_refl Hin) as [Hk Hv].
      split; apply ansiFree_spec; done.
Qed.

Lemma color_gating_witness :
  let parts := [VString "disk "; VInt 93; VString "% full"] in
  let data : option (gmap string Value) := Some {["x" := VInt 1]} in
  ansiFree (Sprint parts) = true /\
  (forall jsonData k v,
     data = Some jsonData -> jsonData !! k = Some v ->
     ansiFree k = true /\ ansiFree (printArg v) = true) /\
  stdout (printOutPut demoClock demoSeed demoLog true true false MessageFatal
            data parts demoWorld).2
  = "2023-09-05 07:03:09:12:12345678 [ ERRO ] disk 93% full [ (x: 1) ]"
    +:+ newline.
Proof.
  intros parts data.
  assert (ansiFree (Sprint parts) = true) as H1 by (vm_compute; reflexivity).
  assert (forall jsonData k v,
            data = Some jsonData -> jsonData !! k = Some v ->
            ansiFree k = true /\ ansiFree (printArg v) = true) as H2.
  { intros jsonData k v [= <-] [<- <-]%lookup_singleton_Some.
    split; vm_compute; reflexivity. }
  split; [exact H1|]. split; [exact H2|].
  destruct (color_gating demoClock demoSeed demoLog true Fatal data parts
              demoWorld H1 H2) as [Ho _].
  etransitivity; [exact Ho|]. vm_compute. reflexivity.
Defined.

(** C5 as stated does not hold: the premise on the single parts is not
    enough, since two parts that are free of escape sequences can join to
    one.  The parts [ESC[31;] and [1m] put the code for red on the
    terminal. *)
Lemma color_gating_counterexample :
  let parts := [VString (String ESC "[31;"); VString "1m"] in
  Forall (fun part => ansiFree (printArg part) = true) parts /\
  stdout (printOutPut demoClock demoSeed demoLog false true false MessageNormal
            None parts demoWorld).2
  = "2023-09-05 07:03:09:12:12345678 [ INFO ] " +:+ ColorRed +:+ newline /\
  ~ color_gating_claim.
Proof.
  intros parts.
  assert (Forall (fun part => ansiFree (printArg part) = true) parts) as Hparts
    by (repeat constructor).
  split; [exact Hparts|]. split; [vm_compute; reflexivity|].
  intros H.
  specialize (H demoClock demoSeed demoLog false Normal None parts demoWorld
                ("2023-09-05 07:03:09:12:12345678 [ INFO ] " +:+ ColorRed
                 +:+ newline) Hparts).
  assert (ansiFree ("2023-09-05 07:03:09:12:12345678 [ INFO ] " +:+ ColorRed
                    +:+ newline) = true) as Hfree.
  { apply H; [done | vm_compute; reflexivity]. }
  vm_compute in Hfree. discriminate Hfree.
Qed.

(** C6. Rendering the empty map writes [ [ ]]; rendering the map with the
    one entry [x -> 1] writes [ [ (x: 1) ]]; and for every map the bytes
    written to the sink are [ []], one fragment [ (key: value)] for each
    entry of the map, every entry exactly once and in the order of the
    iteration, and [ ]]. *)
Theorem renderStructured_shape (mapseed : nat -> list nat)
    (logInstance : LogInstance) (jsonData : gmap string Value) (w : World) :
  let onTerminal (m : gmap string Value) :=
    stdout (generateJSON mapseed logInstance false true m w).2 in
  let onFile (m : gmap string Value) :=
    (generateJSON mapseed logInstance true false m w).2 in
  onTerminal ∅ = stdout w +:+ " [ ]" /\
  onFile ∅ = wfile (logDestination logInstance) " [ ]" (ranged w) /\
  onTerminal {["x" := VInt 1]} = stdout w +:+ " [ (x: 1) ]" /\
  onFile {["x" := VInt 1]}
  = wfile (logDestination logInstance) " [ (x: 1) ]" (ranged w) /\
  exists entries : list (string * Value),
    NoDup entries.*1 /\
    (forall k v, (k, v) ∈ entries <-> jsonData !! k = Some v) /\
    let text :=
      " [" +:+
      Str.concat ((fun e => " (" +:+ e.1 +:+ ": " +:+ printArg e.2 +:+ ")")
                    <$> entries) +:+
      " ]" in
    onTerminal jsonData = stdout w +:+ text /\
    onFile jsonData = wfile (logDestination logInstance) text (ranged w).
Proof.
  intros onTerminal onFile. unfold onTerminal, onFile.
  rewrite !generateJSON_run. cbn [snd whenW stdout wout ranged].
  rewrite map_to_list_empty, permute_nil, map_to_list_singleton,
          permute_singleton.
  do 4 (split; [done|]).
  exists (permute (mapseed (ranges w)) (map_to_list jsonData)).
  split; [|split; [|done]].
  - rewrite permute_Permutation. apply NoDup_fst_map_to_list.
  - intros k v. rewrite permute_Permutation. apply elem_of_map_to_list.
Qed.

(** The order is not determined by the map: every order of its entries is
    written by some iteration. *)
Lemma renderStructured_any_order (logInstance : LogInstance)
    (jsonData : gmap string Value) (entries : list (string * Value)) (w : World) :
  entries ≡ₚ map_to_list jsonData ->
  exists mapseed,
    stdout (generateJSON mapseed logInstance false true jsonData w).2
    = stdout w +:+ renderEntries entries.
Proof.
  intros [choices Hc]%permute_complete. exists (fun _ => choices).
  rewrite generateJSON_run. cbn [snd whenW stdout wout ranged].
  by rewrite Hc.
Qed.

(** C7. [Initialize] returns an instance exactly when [os.Create] opened the
    file, and the instance then wraps the handle that [os.Create] returned,
    open on the path at offset 0 of the emptied file; when the file cannot
    be created, the caller gets nil and the world is unchanged. *)
Theorem Initialize_instance_iff_opened (denied : string -> bool)
    (path : string) (w : World) :
  match os_Create denied path w with
  | (Returned (Some f), w') =>
      Initialize denied path w = (Returned (Some (mkLogInstance f)), w') /\
      fds w' !! f = Some (path, O) /\
      disk w' !! path = Some "" /\
      fds w !! f = None /\
      denied path = false
  | (Returned None, w') =>
      Initialize denied path w = (Returned None, w') /\
      w' = w /\
      denied path = true
  | (Exited _, _) => False
  end.
Proof.
  unfold Initialize, os_Create, mbind, Proc_bind.
  destruct (denied path); [done|]. cbn.
  rewrite !lookup_insert_eq. repeat split.
  apply not_elem_of_dom, is_fresh.
Qed.

(** C8. Every emission, whatever its flags, reads the wall clock exactly
    once, and each sink that is active receives a record that carries the
    one prefix built from that reading and the message type: when both
    sinks are active, the record appended to the file and the record
    written to the terminal begin (after the color code) with the same
    prefix, so the two sinks never see different timestamps. *)
Theorem single_time_capture (clock : nat -> Time) (mapseed : nat -> list nat)
    (logInstance : LogInstance) (toFile toTerminal colored : bool)
    (messageType : string) (jsonContent : option (gmap string Value))
    (messageContent : list Value) (w : World) :
  let prefix := messagePrefixOf (clock (ticks w)) messageType in
  let after := (printOutPut clock mapseed logInstance toFile toTerminal colored
                  messageType jsonContent messageContent w).2 in
  ticks after = S (ticks w) /\
  stdout after
  = stdout w +:+
    (if toTerminal
     then (if colored then colorCodeOf messageType else "") +:+
          prefix +:+ Sprint messageContent +:+
          dataText mapseed
            (ranges w + (if toFile then iterations jsonContent else 0))
            jsonContent +:+
          (if colored then ColorDefault else "") +:+ newline
     else "") /\
  (forall path content,
     file_at_end (logDestination logInstance) path content w ->
     disk after !! path
     = Some (content +:+
             (if toFile
              then prefix +:+ Sprint messageContent +:+
                   dataText mapseed (ranges w) jsonContent +:+ newline
              else ""))).
Proof.
  intros prefix after. unfold after. rewrite printOutPut_run. cbn [snd].
  split; [apply emitWorld_ticks|]. split.
  - rewrite emitWorld_stdout. unfold termRecord.
    by destruct toTerminal, colored.
  - intros path content H.
    by eapply emitWorld_file_at_end in H as [_ ->].
Qed.

Lemma single_time_capture_witness :
  let after := (printOutPut demoClock demoSeed demoLog true true true
                  MessageWarning (Some {["x" := VInt 1]})
                  [VString "disk "; VInt 93; VString "% full"] demoWorld).2 in
  file_at_end (logDestination demoLog) "app.log" "" demoWorld /\
  ticks after = 1%nat /\
  disk after !! "app.log"
  = Some ("2023-09-05 07:03:09:12:12345678 [ WARN ] disk 93% full [ (x: 1) ]"
          +:+ newline) /\
  stdout after
  = ColorYellow +:+
    "2023-09-05 07:03:09:12:12345678 [ WARN ] disk 93% full [ (x: 1) ]" +:+
    ColorDefault +:+ newline.
Proof.
  intros after. split; [exact demoWorld_at_end|].
  destruct (single_time_capture demoClock demoSeed demoLog true true true
              MessageWarning (Some {["x" := VInt 1]})
              [VString "disk "; VInt 93; VString "% full"] demoWorld)
    as (Ht & Ho & Hd).
  specialize (Hd "app.log" "" demoWorld_at_end).
  split; [exact Ht|]. split.
  - etransitivity; [exact Hd|]. vm_compute. reflexivity.
  - etransitivity; [exact Ho|]. vm_compute. reflexivity.
Defined.

(** C9. With [toTerminal] and [colored] and a message type that is none of
    the three tags, the color code is the empty string: the terminal
    record starts directly with the prefix, whose first byte is not the
    escape character, and it still ends with the reset code [ESC[0;0m]
    before the newline; the call returns. *)
Theorem unknown_type_colored_record (clock : nat -> Time)
    (mapseed : nat -> list nat) (logInstance : LogInstance) (toFile : bool)
    (messageType : string) (jsonContent : option (gmap string Value))
    (messageContent : list Value) (w : World) :
  messageType <> MessageNormal ->
  messageType <> MessageFatal ->
  messageType <> MessageWarning ->
  let run := printOutPut clock mapseed logInstance toFile true true
               messageType jsonContent messageContent w in
  let written :=
    messagePrefixOf (clock (ticks w)) messageType +:+
    Sprint messageContent +:+
    dataText mapseed (ranges w + (if toFile then iterations jsonContent else 0))
      jsonContent +:+
    String ESC "[0;0m" +:+ newline in
  colorCodeOf messageType = "" /\
  stdout run.2 = stdout w +:+ written /\
  (exists c rest, written = String c rest /\ c <> ESC) /\
  run.1 = Returned tt.
Proof.
  intros Hn Hf Hw run written.
  assert (colorCodeOf messageType = "") as Hc.
  { unfold colorCodeOf.
    by rewrite (proj2 (String.eqb_neq _ _) Hn), (proj2 (String.eqb_neq _ _) Hf),
               (proj2 (String.eqb_neq _ _) Hw). }
  split; [done|]. unfold run. rewrite printOutPut_run. cbn [fst snd].
  split; [|split].
  - rewrite emitWorld_stdout. unfold termRecord. by rewrite Hc.
  - unfold written.
    destruct (messagePrefixOf_head (clock (ticks w)) messageType)
      as (c & rest & -> & Hin).
    rewrite str_app_cons. eexists _, _. split; [done|].
    intros ->. cbn in Hin. unfold ESC in Hin. intuition discriminate.
  - by rewrite (proj2 (String.eqb_neq _ _) Hf).
Qed.

Lemma unknown_type_colored_record_witness :
  let run := printOutPut demoClock demoSeed demoLog false true true
               " [ DEBUG ] " None [VString "cache miss"] demoWorld in
  " [ DEBUG ] " <> MessageNormal /\
  " [ DEBUG ] " <> MessageFatal /\
  " [ DEBUG ] " <> MessageWarning /\
  stdout run.2
  = "2023-09-05 07:03:09:12:12345678 [ DEBUG ] cache miss" +:+
    String ESC "[0;0m" +:+ newline /\
  run.1 = Returned tt.
Proof.
  intros run.
  destruct (unknown_type_colored_record demoClock demoSeed demoLog false
              " [ DEBUG ] " None [VString "cache miss"] demoWorld)
    as (_ & Ho & _ & Hr); [done..|].
  do 3 (split; [done|]). split; [|exact Hr].
  etransitivity; [exact Ho|]. vm_compute. reflexivity.
Defined.

(** C10. An emission with [toFile = false] writes nothing to the file: the
    contents of the files and the open descriptors with their offsets are
    the same after the call as before, for every value of the other
    arguments (also for a message type that ends the process); the same
    holds of [generateJSON] when it is not asked for file output. *)
Theorem no_file_output_frame (clock : nat -> Time) (mapseed : nat -> list nat)
    (logInstance : LogInstance) (toTerminal colored : bool)
    (messageType : string) (jsonContent : option (gmap string Value))
    (jsonData : gmap string Value) (messageContent : list Value) (w : World) :
  let after := (printOutPut clock mapseed logInstance false toTerminal colored
                  messageType jsonContent messageContent w).2 in
  let rendered := (generateJSON mapseed logInstance false toTerminal jsonData w).2 in
  disk after = disk w /\ fds after = fds w /\
  disk rendered = disk w /\ fds rendered = fds w.
Proof.
  intros after rendered. unfold after, rendered.
  rewrite printOutPut_run, generateJSON_run. cbn [snd].
  unfold emitWorld. cbn [whenW].
  by destruct toTerminal, jsonContent.
Qed.

(** ** Further properties of the code *)

(** *** Outcomes and what follows a call *)

(** X3. The only way in which [printOutPut] ends the process is with status
    1, and it does so exactly when the message type is the string
    [MessageFatal]; for every other string, one of the other two tags or
    not, it returns. *)
Theorem exit_iff_fatal (clock : nat -> Time) (mapseed : nat -> list nat)
    (logInstance : LogInstance) (toFile toTerminal colored : bool)
    (messageType : string) (jsonContent : option (gmap string Value))
    (messageContent : list Value) (w : World) :
  let outcome := (printOutPut clock mapseed logInstance toFile toTerminal
                    colored messageType jsonContent messageContent w).1 in
  (outcome = Exited 1 <-> messageType = MessageFatal) /\
  (outcome = Returned tt <-> messageType <> MessageFatal) /\
  (forall code, outcome = Exited code -> code = 1).
Proof.
  intros outcome. unfold outcome. rewrite printOutPut_run. cbn [fst].
  destruct (String.eqb_spec messageType MessageFatal) as [->|Hne].
  - repeat split; try done. by intros _ [= <-].
  - repeat split; done.
Qed.

(** *** Sinks that are not asked for, and descriptors that are not open *)

(** X11. With [toTerminal = false] nothing is written to the terminal, and
    the [colored] flag has no effect at all: the call behaves the same for
    both of its values.  With both sink flags false the call does nothing
    but read the clock. *)
Theorem no_terminal_output_frame (clock : nat -> Time) (mapseed : nat -> list nat)
    (logInstance : LogInstance) (toFile colored : bool)
    (messageType : string) (jsonContent : option (gmap string Value))
    (messageContent : list Value) (w : World) :
  let run (toFile colored : bool) :=
    printOutPut clock mapseed logInstance toFile false colored
      messageType jsonContent messageContent w in
  stdout (run toFile colored).2 = stdout w /\
  run toFile true = run toFile false /\
  (run false colored).2 = tick w.
Proof.
  intros run. unfold run. rewrite !printOutPut_run. cbn [snd].
  split; [|done].
  unfold emitWorld. destruct toFile; cbn [whenW]; [|done].
  unfold fileSink. rewrite wfile_stdout. by destruct jsonContent.
Qed.

(** X1. For every choice of its two flags [generateJSON] returns, reads no
    clock and iterates over the map exactly once, and each sink that is
    asked for receives the text of that one iteration.  Asked for both
    sinks, it writes the same text, with the entries in the same order, to
    the file and to the terminal; asked for neither, it writes nothing. *)
Theorem generateJSON_both_sinks (mapseed : nat -> list nat)
    (logInstance : LogInstance) (needFileOutPut needTerminalOutput : bool)
    (jsonData : gmap string Value) (w : World) :
  let text := renderEntries (permute (mapseed (ranges w)) (map_to_list jsonData)) in
  let run (nf nt : bool) := generateJSON mapseed logInstance nf nt jsonData w in
  run needFileOutPut needTerminalOutput
  = (Returned tt,
     whenW needTerminalOutput (wout text)
       (whenW needFileOutPut (wfile (logDestination logInstance) text)
          (ranged w))) /\
  run true true
  = (Returned tt, wout text (wfile (logDestination logInstance) text (ranged w))) /\
  run false false = (Returned tt, ranged w) /\
  ranges (run needFileOutPut needTerminalOutput).2 = S (ranges w) /\
  ticks (run needFileOutPut needTerminalOutput).2 = ticks w.
Proof.
  intros text run. unfold run. rewrite !generateJSON_run. cbn [snd].
  do 3 (split; [done|]).
  destruct needFileOutPut, needTerminalOutput;
    cbn [whenW ranges ticks wout ranged];
    by rewrite ?wfile_ranges, ?wfile_ticks.
Qed.

Lemma wfile_closed (f : File) (data : string) (w : World) :
  fds w !! f = None -> wfile f data w = w.
Proof. intros H. unfold wfile. rewrite H. by destruct data. Qed.

(** X10. A file write through a descriptor that is not open is dropped
    without a trace, since the result of [fmt.Fprint] is not looked at: the
    files and the descriptor table stay as they are, while the terminal
    record and the outcome are those of any other emission. *)
Theorem closed_file_is_silent (clock : nat -> Time) (mapseed : nat -> list nat)
    (logInstance : LogInstance) (toFile toTerminal colored : bool)
    (messageType : string) (jsonContent : option (gmap string Value))
    (messageContent : list Value) (w : World) :
  fds w !! logDestination logInstance = None ->
  let run := printOutPut clock mapseed logInstance toFile toTerminal colored
               messageType jsonContent messageContent w in
  disk run.2 = disk w /\
  fds run.2 = fds w /\
  stdout run.2
  = stdout w +:+
    (if toTerminal
     then termRecord colored (colorCodeOf messageType)
            (messagePrefixOf (clock (ticks w)) messageType)
            (Sprint messageContent)
            (dataText mapseed
               (ranges w + (if toFile then iterations jsonContent else 0))
               jsonContent)
     else "") /\
  run.1 = (if String.eqb messageType MessageFatal then Exited 1 else Returned tt).
Proof.
  intros Hclosed run. unfold run. rewrite printOutPut_run. cbn [fst snd].
  split; [|split; [|split; [apply emitWorld_stdout | done]]].
  all: unfold emitWorld, termSink, fileSink;
    destruct toTerminal, toFile, jsonContent; cbn [whenW rangedIf];
    by rewrite ?wfile_closed.
Qed.

Lemma closed_file_is_silent_witness :
  let orphan := mkLogInstance 7 in
  let run := printOutPut demoClock demoSeed orphan true true false
               MessageWarning None [VString "lost"] demoWorld in
  fds demoWorld !! logDestination orphan = None /\
  disk run.2 = disk demoWorld /\
  stdout run.2
  = "2023-09-05 07:03:09:12:12345678 [ WARN ] lost" +:+ newline.
Proof.
  intros orphan run.
  assert (fds demoWorld !! logDestination orphan = None) as H
    by (vm_compute; reflexivity).
  destruct (closed_file_is_silent demoClock demoSeed orphan true true false
              MessageWarning None [VString "lost"] demoWorld H)
    as (Hd & _ & Ho & _).
  split; [exact H|]. split; [exact Hd|].
  etransitivity; [exact Ho|]. vm_compute. reflexivity.
Defined.

(** *** What a call touches *)

Lemma fileRecord_nonempty (prefix body suffix : string) :
  exists c rest, fileRecord prefix body suffix = String c rest.
Proof.
  unfold fileRecord.
  destruct prefix as [|c prefix]; [|by eexists _, _].
  destruct body as [|c body]; [|by eexists _, _].
  destruct suffix as [|c suffix]; by eexists _, _.
Qed.

Lemma wfile_open (f : File) (path : string) (off : nat) (c : ascii)
    (rest : string) (w : World) :
  fds w !! f = Some (path, off) ->
  wfile f (String c rest) w
  = mkWorld (<[path := pwrite off (String c rest) (default "" (disk w !! path))]> (disk w))
            (<[f := (path, (off + String.length (String c rest))%nat)]> (fds w))
            (stdout w) (ticks w) (ranges w).
Proof. intros H. unfold wfile. by rewrite H. Qed.

Lemma pwrite_gap (n : nat) (data : string) : pwrite n data "" = nuls n +:+ data.
Proof.
  induction n as [|n IH]; cbn [pwrite nuls].
  - by rewrite str_drop_nil, str_app_nil_r.
  - by rewrite IH.
Qed.

(** The files and descriptors after an emission through an open
    descriptor, at whatever offset it stands. *)
Lemma emitWorld_open (clock : nat -> Time) (mapseed : nat -> list nat)
    (logInstance : LogInstance) (toFile toTerminal colored : bool)
    (messageType : string) (jsonContent : option (gmap string Value))
    (messageContent : list Value) (w : World) (path : string) (off : nat) :
  fds w !! logDestination logInstance = Some (path, off) ->
  let after := emitWorld clock mapseed logInstance toFile toTerminal colored
                 messageType jsonContent messageContent w in
  let record := fileRecord (messagePrefixOf (clock (ticks w)) messageType)
                  (Sprint messageContent)
                  (dataText mapseed (ranges w) jsonContent) in
  disk after
  = (if toFile
     then <[path := pwrite off record (default "" (disk w !! path))]> (disk w)
     else disk w) /\
  fds after
  = (if toFile
     then <[logDestination logInstance
            := (path, (off + String.length record)%nat)]> (fds w)
     else fds w).
Proof.
  intros H after record. unfold after, emitWorld.
  assert (forall b step w0,
            (forall w1, disk (step w1) = disk w1 /\ fds (step w1) = fds w1) ->
            disk (whenW b step w0) = disk w0 /\ fds (whenW b step w0) = fds w0)
    as Hframe by (intros [] ? ? Hs; [apply Hs | done]).
  destruct (Hframe toTerminal
              (termSink mapseed colored (colorCodeOf messageType)
                 (messagePrefixOf (clock (ticks w)) messageType)
                 jsonContent messageContent)
              (whenW toFile
                 (fileSink mapseed (logDestination logInstance)
                    (messagePrefixOf (clock (ticks w)) messageType)
                    jsonContent messageContent) (tick w)))
    as [-> ->].
  { intros w1. unfold termSink. by destruct jsonContent. }
  destruct toFile; cbn [whenW]; [|done].
  unfold fileSink. change (ranges (tick w)) with (ranges w). fold record.
  destruct (fileRecord_nonempty (messagePrefixOf (clock (ticks w)) messageType)
              (Sprint messageContent) (dataText mapseed (ranges w) jsonContent))
    as (c & rest & E).
  fold record in E. rewrite E.
  rewrite (wfile_open _ path off); by destruct jsonContent.
Qed.

(** X9. An emission through an open descriptor touches the file of that
    descriptor and nothing else on disk: every other file and every other
    descriptor is as before.  With [toFile] the record goes to the file at
    the descriptor's offset, which advances by the length of the record;
    without it the file and the offset stay. *)
Theorem emission_touches_own_file (clock : nat -> Time)
    (mapseed : nat -> list nat) (logInstance : LogInstance)
    (toFile toTerminal colored : bool) (messageType : string)
    (jsonContent : option (gmap string Value)) (messageContent : list Value)
    (w : World) (path : string) (off : nat) :
  fds w !! logDestination logInstance = Some (path, off) ->
  let after := (printOutPut clock mapseed logInstance toFile toTerminal colored
                  messageType jsonContent messageContent w).2 in
  let record := fileRecord (messagePrefixOf (clock (ticks w)) messageType)
                  (Sprint messageContent)
                  (dataText mapseed (ranges w) jsonContent) in
  (forall path', path' <> path -> disk after !! path' = disk w !! path') /\
  (forall f', f' <> logDestination logInstance ->
     fds after !! f' = fds w !! f') /\
  fds after !! logDestination logInstance
  = Some (path, (off + (if toFile then String.length record else 0))%nat) /\
  disk after !! path
  = (if toFile
     then Some (pwrite off record (default "" (disk w !! path)))
     else disk w !! path).
Proof.
  intros H after record. unfold after. rewrite printOutPut_run. cbn [snd].
  destruct (emitWorld_open clock mapseed logInstance toFile toTerminal colored
              messageType jsonContent messageContent w path off H) as [-> ->].
  fold record. destruct toFile.
  - repeat split.
    + intros path' Hne. by rewrite lookup_insert_ne.
    + intros f' Hne. by rewrite lookup_insert_ne.
    + by rewrite lookup_insert_eq.
    + by rewrite lookup_insert_eq.
  - repeat split; try done. rewrite H. do 2 f_equal. lia.
Qed.

Lemma emission_touches_own_file_witness :
  let after := (printOutPut demoClock demoSeed demoLog true true false
                  MessageNormal None [VString "second"] demoWorld2).2 in
  fds demoWorld2 !! logDestination demoLog = Some ("app.log", 47%nat) /\
  fds after !! logDestination demoLog = Some ("app.log", 95%nat) /\
  disk after !! "app.log"
  = Some ("2023-09-05 07:03:09:12:12345678 [ INFO ] first" +:+ newline +:+
          "2023-09-05 07:03:09:12:12345679 [ INFO ] second" +:+ newline).
Proof.
  intros after.
  assert (fds demoWorld2 !! logDestination demoLog = Some ("app.log", 47%nat))
    as H by (vm_compute; reflexivity).
  destruct (emission_touches_own_file demoClock demoSeed demoLog true true false
              MessageNormal None [VString "second"] demoWorld2 "app.log" 47 H)
    as (_ & _ & Hf & Hd).
  split; [exact H|]. split.
  - etransitivity; [exact Hf|]. vm_compute. reflexivity.
  - etransitivity; [exact Hd|]. vm_compute. reflexivity.
Defined.

(** X7. [Initialize] writes nothing to the terminal and reads no clock; it
    leaves every other file and every descriptor that is already open,
    with its offset, as it was; the descriptor of a new instance was not
    open before; and [Initialize] always returns. *)
Theorem Initialize_frame (denied : string -> bool) (path : string) (w : World) :
  let run := Initialize denied path w in
  stdout run.2 = stdout w /\
  ticks run.2 = ticks w /\
  ranges run.2 = ranges w /\
  (forall path', path' <> path -> disk run.2 !! path' = disk w !! path') /\
  (forall f' x, fds w !! f' = Some x -> fds run.2 !! f' = Some x) /\
  (forall logInstance, run.1 = Returned (Some logInstance) ->
     fds w !! logDestination logInstance = None) /\
  (exists result, run.1 = Returned result).
Proof.
  intros run. unfold run, Initialize, os_Create, mbind, Proc_bind.
  pose proof (is_fresh (dom (fds w))) as Hfresh.
  apply not_elem_of_dom in Hfresh.
  destruct (denied path); cbn.
  - repeat split; try done. by eexists.
  - repeat split; try done.
    + intros path' Hne. by rewrite lookup_insert_ne.
    + intros f' x Hx. rewrite lookup_insert_ne; [done|]. by intros <-; congruence.
    + by intros logInstance [= <-].
    + by eexists.
Qed.

Lemma emission_into_emptied_file (clock : nat -> Time)
    (mapseed : nat -> list nat) (logInstance : LogInstance)
    (toTerminal colored : bool) (messageType : string)
    (jsonContent : option (gmap string Value)) (messageContent : list Value)
    (w : World) (path : string) (off : nat) :
  fds w !! logDestination logInstance = Some (path, off) ->
  disk w !! path = Some "" ->
  disk (printOutPut clock mapseed logInstance true toTerminal colored
          messageType jsonContent messageContent w).2 !! path
  = Some (nuls off +:+
          fileRecord (messagePrefixOf (clock (ticks w)) messageType)
            (Sprint messageContent)
            (dataText mapseed (ranges w) jsonContent)).
Proof.
  intros Hf Hd. rewrite printOutPut_run. cbn [snd].
  destruct (emitWorld_open clock mapseed logInstance true toTerminal colored
              messageType jsonContent messageContent w path off Hf) as [-> _].
  by rewrite lookup_insert_eq, Hd, pwrite_gap.
Qed.

(** X8. Initializing a path again while an earlier instance still writes to
    it empties the file and opens a new descriptor at its start, but the
    earlier descriptor keeps its offset: the next record that goes through
    the earlier instance is not put at the start of the emptied file but
    behind a gap of as many zero bytes as that instance had written. *)
Theorem stale_instance_leaves_gap (clock : nat -> Time)
    (mapseed : nat -> list nat) (denied : string -> bool)
    (logInstance : LogInstance) (toTerminal colored : bool)
    (messageType : string) (jsonContent : option (gmap string Value))
    (messageContent : list Value) (w : World) (path content : string) :
  file_at_end (logDestination logInstance) path content w ->
  denied path = false ->
  exists (second : LogInstance) (w1 : World),
    Initialize denied path w = (Returned (Some second), w1) /\
    logDestination second <> logDestination logInstance /\
    file_at_end (logDestination second) path "" w1 /\
    fds w1 !! logDestination logInstance = Some (path, String.length content) /\
    disk (printOutPut clock mapseed logInstance true toTerminal colored
            messageType jsonContent messageContent w1).2 !! path
    = Some (nuls (String.length content) +:+
            fileRecord (messagePrefixOf (clock (ticks w)) messageType)
              (Sprint messageContent)
              (dataText mapseed (ranges w) jsonContent)).
Proof.
  intros [Hf Hd] Hok.
  destruct (Initialize denied path w) as [result w1] eqn:E.
  unfold Initialize, os_Create, mbind, Proc_bind in E. rewrite Hok in E.
  injection E as <- <-.
  set (f2 := fresh (dom (fds w))) in *.
  assert (f2 <> logDestination logInstance) as Hne.
  { intros Heq. pose proof (is_fresh (dom (fds w))) as Hfresh.
    apply not_elem_of_dom in Hfresh. fold f2 in Hfresh. congruence. }
  eexists (mkLogInstance f2), _. split; [reflexivity|].
  split; [exact Hne|]. split.
  { split; cbn; by rewrite lookup_insert_eq. }
  split.
  { cbn. by rewrite lookup_insert_ne. }
  rewrite (emission_into_emptied_file _ _ _ _ _ _ _ _ _ path
             (String.length content)); [done | |].
  - cbn. by rewrite lookup_insert_ne.
  - cbn. by rewrite lookup_insert_eq.
Qed.

Lemma stale_instance_leaves_gap_witness :
  let content := "2023-09-05 07:03:09:12:12345678 [ INFO ] first" +:+ newline in
  file_at_end (logDestination demoLog) "app.log" content demoWorld2 /\
  demoDenied "app.log" = false /\
  exists (second : LogInstance) (w1 : World),
    Initialize demoDenied "app.log" demoWorld2 = (Returned (Some second), w1) /\
    disk (printOutPut demoClock demoSeed demoLog true false false MessageNormal
            None [VString "late"] w1).2 !! "app.log"
    = Some (nuls 47 +:+
            "2023-09-05 07:03:09:12:12345679 [ INFO ] late" +:+ newline).
Proof.
  intros content.
  assert (file_at_end (logDestination demoLog) "app.log" content demoWorld2)
    as H1 by (split; vm_compute; reflexivity).
  assert (demoDenied "app.log" = false) as H2 by (vm_compute; reflexivity).
  split; [exact H1|]. split; [exact H2|].
  destruct (stale_instance_leaves_gap demoClock demoSeed demoDenied demoLog
              false false MessageNormal None [VString "late"] demoWorld2
              "app.log" content H1 H2)
    as (second & w1 & Hi & _ & _ & _ & Hd).
  exists second, w1. split; [exact Hi|].
  etransitivity; [exact Hd|]. vm_compute. reflexivity.
Defined.

(** *** Records one after the other *)

Lemma emitWorld_ranges (clock : nat -> Time) (mapseed : nat -> list nat)
    (logInstance : LogInstance) (e : Emission) (w : World) :
  ranges (emitWorld clock mapseed logInstance (toFile e) (toTerminal e)
            (colored e) (messageType e) (jsonContent e) (messageContent e) w)
  = (ranges w + fileIterations e + termIterations e)%nat.
Proof.
  unfold emitWorld, termSink, fileSink, fileIterations, termIterations.
  destruct (toTerminal e), (toFile e), (jsonContent e);
    cbn [whenW rangedIf iterations ranges wout ranged];
    rewrite ?wfile_ranges; cbn; lia.
Qed.

Lemma emitAll_run (clock : nat -> Time)
    (mapseed : nat -> list nat) (logInstance : LogInstance)
    (es : list Emission) (w : World) (path content : string) :
  Forall (fun e => messageType e <> MessageFatal) es ->
  file_at_end (logDestination logInstance) path content w ->
  let run := emitAll clock mapseed logInstance es w in
  run.1 = Returned tt /\
  file_at_end (logDestination logInstance) path
    (content +:+ fileText clock mapseed (ticks w) (ranges w) es) run.2 /\
  stdout run.2 = stdout w +:+ termText clock mapseed (ticks w) (ranges w) es /\
  ticks run.2 = (ticks w + length es)%nat.
Proof.
  intros Hes. revert w content.
  induction Hes as [|e es He _ IH]; intros w content Hend run.
  - cbn. rewrite !str_app_nil_r. repeat split; try apply Hend. lia.
  - set (w1 := emitWorld clock mapseed logInstance (toFile e) (toTerminal e)
                 (colored e) (messageType e) (jsonContent e)
                 (messageContent e) w).
    assert (emit clock mapseed logInstance e w = (Returned tt, w1)) as E.
    { unfold emit. rewrite printOutPut_run.
      by rewrite (proj2 (String.eqb_neq _ _) He). }
    unfold run, emitAll. cbn [forEach]. rewrite (bind_run _ _ _ _ _ E).
    pose proof (emitWorld_file_at_end clock mapseed logInstance (toFile e)
                  (toTerminal e) (colored e) (messageType e) (jsonContent e)
                  (messageContent e) w path content Hend) as Hend1.
    fold w1 in Hend1.
    destruct (IH w1 _ Hend1) as (Hr & Hf & Ho & Ht).
    assert (ticks w1 = S (ticks w)) as Et by apply emitWorld_ticks.
    assert (ranges w1 = (ranges w + fileIterations e + termIterations e)%nat)
      as Er by apply emitWorld_ranges.
    assert (stdout w1 = stdout w +:+
              (if toTerminal e
               then termRecord (colored e) (colorCodeOf (messageType e))
                      (messagePrefixOf (clock (ticks w)) (messageType e))
                      (Sprint (messageContent e))
                      (dataText mapseed (ranges w + fileIterations e)
                         (jsonContent e))
               else "")) as Eo by apply emitWorld_stdout.
    rewrite Et, Er in Hf, Ho. rewrite Eo in Ho. rewrite Et in Ht.
    fold (emitAll clock mapseed logInstance es).
    cbn [fileText termText length].
    rewrite <- !str_app_assoc in *.
    split; [exact Hr|]. split; [exact Hf|]. split; [exact Ho|]. lia.
Qed.

(** X5. Emissions that are not fatal, made one after the other through an
    instance whose descriptor is at the end of its file, all return; the
    file ends up with its old content followed by the file records in the
    order of the calls, the terminal with the terminal records in the same
    order, and the clock has been read once for each call. *)
Theorem emissions_append_in_order (clock : nat -> Time)
    (mapseed : nat -> list nat) (logInstance : LogInstance)
    (es : list Emission) (w : World) (path content : string) :
  Forall (fun e => messageType e <> MessageFatal) es ->
  file_at_end (logDestination logInstance) path content w ->
  let run := emitAll clock mapseed logInstance es w in
  run.1 = Returned tt /\
  file_at_end (logDestination logInstance) path
    (content +:+ fileText clock mapseed (ticks w) (ranges w) es) run.2 /\
  stdout run.2 = stdout w +:+ termText clock mapseed (ticks w) (ranges w) es /\
  ticks run.2 = (ticks w + length es)%nat.
Proof. apply emitAll_run. Qed.

Lemma emissions_append_in_order_witness :
  let es := [mkEmission true true false MessageNormal None [VString "one"];
             mkEmission false true true MessageWarning None [VString "two"];
             mkEmission true false false " [ NOTE ] " None [VInt 3; VInt 4]] in
  let run := emitAll demoClock demoSeed demoLog es demoWorld in
  Forall (fun e => messageType e <> MessageFatal) es /\
  file_at_end (logDestination demoLog) "app.log" "" demoWorld /\
  disk run.2 !! "app.log"
  = Some ("2023-09-05 07:03:09:12:12345678 [ INFO ] one" +:+ newline +:+
          "2023-09-05 07:03:09:12:12345680 [ NOTE ] 3 4" +:+ newline) /\
  stdout run.2
  = "2023-09-05 07:03:09:12:12345678 [ INFO ] one" +:+ newline +:+
    ColorYellow +:+ "2023-09-05 07:03:09:12:12345679 [ WARN ] two" +:+
    ColorDefault +:+ newline.
Proof.
  intros es run.
  assert (Forall (fun e => messageType e <> MessageFatal) es) as H1
    by (repeat constructor; discriminate).
  split; [exact H1|]. split; [exact demoWorld_at_end|].
  destruct (emissions_append_in_order demoClock demoSeed demoLog es demoWorld
              "app.log" "" H1 demoWorld_at_end) as (_ & [_ Hd] & Ho & _).
  split.
  - etransitivity; [exact Hd|]. vm_compute. reflexivity.
  - etransitivity; [exact Ho|]. vm_compute. reflexivity.
Defined.

(** X6. A new log: when the path can be created, [Initialize] followed by
    emissions that are not fatal leaves in the file exactly the file
    records of these emissions, in the order of the calls, whatever the
    file held before. *)
Theorem new_log_holds_the_records (clock : nat -> Time)
    (mapseed : nat -> list nat) (denied : string -> bool)
    (es : list Emission) (w : World) (path : string) :
  denied path = false ->
  Forall (fun e => messageType e <> MessageFatal) es ->
  let run :=
    (opened ← Initialize denied path;
     match opened with
     | Some logInstance => emitAll clock mapseed logInstance es
     | None => mret tt
     end) w in
  run.1 = Returned tt /\
  disk run.2 !! path = Some (fileText clock mapseed (ticks w) (ranges w) es).
Proof.
  intros Hok Hes run. unfold run.
  destruct (Initialize denied path w) as [result w1] eqn:E.
  assert (ticks w1 = ticks w /\ ranges w1 = ranges w /\
          exists logInstance, result = Returned (Some logInstance))
    as (Et & Er & logInstance & ->).
  { unfold Initialize, os_Create, mbind, Proc_bind in E. rewrite Hok in E.
    injection E as <- <-. cbn. eauto. }
  pose proof (Initialize_file_at_end denied path w w1 logInstance E) as Hend.
  rewrite (bind_run _ _ _ _ _ E).
  destruct (emitAll_run clock mapseed logInstance es w1 path "" Hes Hend)
    as (Hr & [_ Hd] & _).
  rewrite Et, Er, str_app_nil_l in Hd. done.
Qed.

Lemma new_log_holds_the_records_witness :
  let es := [mkEmission true false false MessageNormal None [VString "one"];
             mkEmission true false false MessageWarning None [VString "two"]] in
  let run :=
    (opened ← Initialize demoDenied "app.log";
     match opened with
     | Some logInstance => emitAll demoClock demoSeed logInstance es
     | None => mret tt
     end) demoWorld2 in
  demoDenied "app.log" = false /\
  Forall (fun e => messageType e <> MessageFatal) es /\
  disk demoWorld2 !! "app.log"
  = Some ("2023-09-05 07:03:09:12:12345678 [ INFO ] first" +:+ newline) /\
  disk run.2 !! "app.log"
  = Some ("2023-09-05 07:03:09:12:12345679 [ INFO ] one" +:+ newline +:+
          "2023-09-05 07:03:09:12:12345680 [ WARN ] two" +:+ newline).
Proof.
  intros es run.
  assert (demoDenied "app.log" = false) as H1 by (vm_compute; reflexivity).
  assert (Forall (fun e => messageType e <> MessageFatal) es) as H2
    by (repeat constructor; discriminate).
  split; [exact H1|]. split; [exact H2|].
  split; [vm_compute; reflexivity|].
  destruct (new_log_holds_the_records demoClock demoSeed demoDenied es
              demoWorld2 "app.log" H1 H2) as (_ & Hd).
  etransitivity; [exact Hd|]. vm_compute. reflexivity.
Defined.

(** *** The two sinks of one emission *)

(** X2. The file sink and the terminal sink of one emission iterate over
    the map separately, so nothing ties the order of the entries in the
    file record to their order in the terminal record: for any two orders
    of the entries there is a run in which the file shows the first and
    the terminal the second. *)
Theorem sinks_order_independently (clock : nat -> Time)
    (logInstance : LogInstance) (colored : bool) (messageType : string)
    (jsonData : gmap string Value) (messageContent : list Value)
    (w : World) (path content : string)
    (inFile onTerminal : list (string * Value)) :
  inFile ≡ₚ map_to_list jsonData ->
  onTerminal ≡ₚ map_to_list jsonData ->
  file_at_end (logDestination logInstance) path content w ->
  exists mapseed : nat -> list nat,
    let prefix := messagePrefixOf (clock (ticks w)) messageType in
    let after := (printOutPut clock mapseed logInstance true true colored
                    messageType (Some jsonData) messageContent w).2 in
    disk after !! path
    = Some (content +:+ prefix +:+ Sprint messageContent +:+
            renderEntries inFile +:+ newline) /\
    stdout after
    = stdout w +:+ (if colored then colorCodeOf messageType else "") +:+
      prefix +:+ Sprint messageContent +:+ renderEntries onTerminal +:+
      (if colored then ColorDefault else "") +:+ newline.
Proof.
  intros [c1 H1]%permute_complete [c2 H2]%permute_complete Hend.
  exists (fun n => if Nat.eqb n (ranges w) then c1 else c2).
  intros prefix after. unfold after. rewrite printOutPut_run. cbn [snd]. split.
  - eapply emitWorld_file_at_end in Hend as [_ ->].
    cbn [dataText]. by rewrite Nat.eqb_refl, H1.
  - rewrite emitWorld_stdout. cbn [dataText iterations].
    rewrite (proj2 (Nat.eqb_neq _ _)) by lia. rewrite H2.
    unfold termRecord. by destruct colored.
Qed.

Lemma sinks_order_independently_witness :
  let data : gmap string Value := {["x" := VInt 1; "y" := VString "z"]} in
  let inFile := [("x", VInt 1); ("y", VString "z")] in
  let onTerminal := [("y", VString "z"); ("x", VInt 1)] in
  inFile ≡ₚ map_to_list data /\
  onTerminal ≡ₚ map_to_list data /\
  file_at_end (logDestination demoLog) "app.log" "" demoWorld /\
  exists mapseed : nat -> list nat,
    let after := (printOutPut demoClock mapseed demoLog true true false
                    MessageNormal (Some data) [] demoWorld).2 in
    disk after !! "app.log"
    = Some ("2023-09-05 07:03:09:12:12345678 [ INFO ]  [ (x: 1) (y: z) ]"
            +:+ newline) /\
    stdout after
    = "2023-09-05 07:03:09:12:12345678 [ INFO ]  [ (y: z) (x: 1) ]"
      +:+ newline.
Proof.
  intros data inFile onTerminal.
  assert (map_to_list data = onTerminal) as E by (vm_compute; reflexivity).
  assert (inFile ≡ₚ map_to_list data) as H1 by (rewrite E; constructor).
  assert (onTerminal ≡ₚ map_to_list data) as H2 by (by rewrite E).
  split; [exact H1|]. split; [exact H2|]. split; [exact demoWorld_at_end|].
  destruct (sinks_order_independently demoClock demoLog false MessageNormal
              data [] demoWorld "app.log" "" inFile onTerminal H1 H2
              demoWorld_at_end) as (mapseed & Hd & Ho).
  exists mapseed. split.
  - etransitivity; [exact Hd|]. vm_compute. reflexivity.
  - etransitivity; [exact Ho|]. vm_compute. reflexivity.
Defined.

(** *** Lines, widths and separators *)

Lemma renderEntries_newlines (entries : list (string * Value)) :
  Str.count "010" (renderEntries entries)
  = sum_list ((fun e => (Str.count "010" e.1 +
                         Str.count "010" (printArg e.2))%nat) <$> entries).
Proof.
  unfold renderEntries. rewrite !str_count_app.
  change (Str.count "010" " [") with 0%nat.
  change (Str.count "010" " ]") with 0%nat.
  rewrite Nat.add_0_l, Nat.add_0_r.
  induction entries as [|[k v] entries IH]; [done|].
  cbn [fmap list_fmap Str.concat sum_list sum_list_with fst snd].
  rewrite str_count_app, IH. unfold fragment. rewrite !str_count_app.
  cbn [fst snd].
  change (Str.count "010" " (") with 0%nat.
  change (Str.count "010" ": ") with 0%nat.
  change (Str.count "010" ")") with 0%nat.
  unfold id. lia.
Qed.

Lemma messagePrefixOf_newlines (t : Time) (messageType : string) :
  Str.count "010" (messagePrefixOf t messageType) = Str.count "010" messageType.
Proof.
  unfold messagePrefixOf. rewrite !str_count_app.
  rewrite (str_count_notin "010" (formatYMDHMS t)); cycle 1.
  { intros H%formatYMDHMS_chars. cbn in H. intuition discriminate. }
  rewrite !(str_count_notin "010" (Itoa _)); cycle 1.
  { intros H%Itoa_chars. cbn in H. intuition discriminate. }
  { intros H%Itoa_chars. cbn in H. intuition discriminate. }
  reflexivity.
Qed.

(** X12. Nothing in a record is escaped: the number of newlines that an
    emission adds to the file is one, for the end of the record, plus the
    newlines in the message type (the three tags have none), plus the
    newlines in the printed message, plus the newlines in the keys and
    values of the structured data.  A record is one line exactly when the
    message type, the message and the data contain no newline. *)
Theorem lines_per_record (clock : nat -> Time) (mapseed : nat -> list nat)
    (logInstance : LogInstance) (toTerminal colored : bool)
    (messageType : string)
    (jsonContent : option (gmap string Value)) (messageContent : list Value)
    (w : World) (path content : string) :
  file_at_end (logDestination logInstance) path content w ->
  let entries :=
    match jsonContent with
    | Some jsonData => permute (mapseed (ranges w)) (map_to_list jsonData)
    | None => []
    end in
  (exists record,
     disk (printOutPut clock mapseed logInstance true toTerminal colored
             messageType jsonContent messageContent w).2 !! path
     = Some (content +:+ record) /\
     Str.count "010" record
     = (1 + Str.count "010" messageType +
        Str.count "010" (Sprint messageContent) +
        sum_list ((fun e => (Str.count "010" e.1 +
                             Str.count "010" (printArg e.2))%nat)
                    <$> entries))%nat) /\
  Str.count "010" MessageNormal = 0%nat /\
  Str.count "010" MessageFatal = 0%nat /\
  Str.count "010" MessageWarning = 0%nat.
Proof.
  intros Hend entries. split; [|done]. eexists. split.
  - rewrite printOutPut_run. cbn [snd].
    by eapply emitWorld_file_at_end in Hend as [_ ->].
  - unfold fileRecord. rewrite !str_count_app.
    rewrite messagePrefixOf_newlines.
    assert (Str.count "010" (dataText mapseed (ranges w) jsonContent)
            = sum_list ((fun e => (Str.count "010" e.1 +
                                   Str.count "010" (printArg e.2))%nat) <$> entries))
      as ->.
    { unfold entries. destruct jsonContent as [jsonData|]; [|done].
      cbn [dataText]. apply renderEntries_newlines. }
    change (Str.count "010" newline) with 1%nat. lia.
Qed.

Lemma lines_per_record_witness :
  let parts := [VString ("disk full" +:+ newline +:+ "retrying")] in
  let noteType := " [ NOTE" +:+ newline +:+ " ] " in
  file_at_end (logDestination demoLog) "app.log" "" demoWorld /\
  exists record,
    disk (printOutPut demoClock demoSeed demoLog true false false
            noteType None parts demoWorld).2 !! "app.log"
    = Some record /\
    Str.count "010" record = 3%nat.
Proof.
  intros parts noteType. split; [exact demoWorld_at_end|].
  destruct (lines_per_record demoClock demoSeed demoLog false false noteType
              None parts demoWorld "app.log" "" demoWorld_at_end)
    as ((record & Hd & Hc) & _).
  exists record. split; [exact Hd|].
  etransitivity; [exact Hc|]. vm_compute. reflexivity.
Defined.

(** Zero-padding fills a field up to its width: checked for every number
    below the bound. *)
Lemma appendInt_width (width bound : nat) (x : Z) :
  forallb (fun n => Nat.eqb (String.length (appendInt (Z.of_nat n) width)) width)
          (seq 0 bound) = true ->
  0 <= x < Z.of_nat bound ->
  String.length (appendInt x width) = width.
Proof.
  intros Hall Hx. rewrite forallb_forall in Hall.
  specialize (Hall (Z.to_nat x)). rewrite Z2Nat.id in Hall by lia.
  apply Nat.eqb_eq, Hall, in_seq. lia.
Qed.

(** X13. For a time with its fields in their calendar ranges and a year
    from 0 to 9999, the formatted time at the head of the prefix is exactly
    19 bytes long, every field being padded with zeros to its width, and
    the millisecond field that follows it is a number from 0 to 999. *)
Theorem timestamp_is_fixed_width (t : Time) :
  wf_Time t ->
  0 <= Year t <= 9999 ->
  String.length (Format t "2006-01-02 15:04:05") = 19%nat /\
  0 <= Z.quot (Nanosecond t) 1000000 <= 999.
Proof.
  intros Hwf Hy. split; [|by apply millisecond_range].
  destruct Hwf as (Hmo & Hd & Hh & Hmi & Hs & _).
  rewrite Format_layout. unfold formatYMDHMS. rewrite !str_length_app.
  rewrite (appendInt_width 4 (Z.to_nat 10000) (Year t));
    [|vm_compute; reflexivity | lia].
  rewrite (appendInt_width 2 (Z.to_nat 100) (Month t));
    [|vm_compute; reflexivity | lia].
  rewrite (appendInt_width 2 (Z.to_nat 100) (Day t));
    [|vm_compute; reflexivity | lia].
  rewrite (appendInt_width 2 (Z.to_nat 100) (Hour t));
    [|vm_compute; reflexivity | lia].
  rewrite (appendInt_width 2 (Z.to_nat 100) (Minute t));
    [|vm_compute; reflexivity | lia].
  rewrite (appendInt_width 2 (Z.to_nat 100) (Second t));
    [|vm_compute; reflexivity | lia].
  reflexivity.
Qed.

Lemma timestamp_is_fixed_width_witness :
  wf_Time (demoClock 0) /\
  0 <= Year (demoClock 0) <= 9999 /\
  String.length (Format (demoClock 0) "2006-01-02 15:04:05") = 19%nat.
Proof.
  assert (wf_Time (demoClock 0)) as H1 by (unfold wf_Time; cbn; lia).
  assert (0 <= Year (demoClock 0) <= 9999) as H2 by (cbn; lia).
  split; [exact H1|]. split; [exact H2|].
  exact (proj1 (timestamp_is_fixed_width (demoClock 0) H1 H2)).
Defined.

(** The loop of [fmt.Print] from its second operand on. *)
Lemma doPrint_joinParts (argNum : nat) (prevString : bool) (a : list Value) :
  doPrint (S argNum) prevString a
  = match a with
    | [] => ""
    | y :: _ => if prevString || isString y then "" else " "
    end +:+ joinParts a.
Proof.
  revert argNum prevString; induction a as [|x a IH]; intros argNum prevString;
    [done|].
  cbn [doPrint joinParts]. rewrite IH. cbn [Nat.ltb Nat.leb andb].
  destruct prevString, (isString x), a as [|y a]; cbn [negb orb andb];
    try destruct (isString y); reflexivity.
Qed.

Lemma Sprint_joinParts (a : list Value) : Sprint a = joinParts a.
Proof.
  unfold Sprint. destruct a as [|x rest]; [done|].
  cbn [doPrint joinParts]. rewrite doPrint_joinParts.
  cbn [Nat.ltb Nat.leb andb]. rewrite str_app_nil_l.
  by destruct rest.
Qed.

(** X14. In every record, on the file and on the terminal, colored or not,
    with or without structured data, the message body is the parts in
    their default formats joined by the rule for neighbours: one space
    between two adjacent parts exactly when neither of them is a string.
    In particular a message whose parts are all strings is their plain
    concatenation. *)
Theorem message_is_joined_by_neighbours (clock : nat -> Time)
    (mapseed : nat -> list nat) (logInstance : LogInstance)
    (toFile toTerminal colored : bool) (messageType : string)
    (jsonContent : option (gmap string Value)) (messageContent : list Value)
    (w : World) :
  let prefix := messagePrefixOf (clock (ticks w)) messageType in
  let after := (printOutPut clock mapseed logInstance toFile toTerminal colored
                  messageType jsonContent messageContent w).2 in
  stdout after
  = stdout w +:+
    (if toTerminal
     then termRecord colored (colorCodeOf messageType) prefix
            (joinParts messageContent)
            (dataText mapseed
               (ranges w + (if toFile then iterations jsonContent else 0))
               jsonContent)
     else "") /\
  (forall path content,
     file_at_end (logDestination logInstance) path content w ->
     disk after !! path
     = Some (content +:+
             (if toFile
              then fileRecord prefix (joinParts messageContent)
                     (dataText mapseed (ranges w) jsonContent)
              else ""))) /\
  (forallb isString messageContent = true ->
   joinParts messageContent = Str.concat (printArg <$> messageContent)).
Proof.
  intros prefix after. unfold after. rewrite printOutPut_run. cbn [snd].
  rewrite <- Sprint_joinParts. split; [apply emitWorld_stdout|]. split.
  - intros path content H.
    by eapply emitWorld_file_at_end in H as [_ ->].
  - rewrite Sprint_joinParts.
    induction messageContent as [|x rest IH]; [done|].
    cbn [forallb]. intros [Hx Hrest]%andb_true_iff.
    cbn [joinParts fmap list_fmap Str.concat]. rewrite IH by done.
    rewrite Hx. by destruct rest.
Qed.


